(** * Pro Screen Recorder: the capture session controller

    A shallow embedding of the recorder hook (useScreenRecorder), its two
    composition helpers and the mime-type negotiator of utils/helpers.ts,
    with the properties of the controller stated over it.

    Conventions of the embedding.
    - React state (status, error, timer) and the hook's refs are the fields
      of one record, [Hook]; every callback of the hook is a computation
      in a small monad over [Hook] that may throw and that emits the
      effects it has on the host platform as a list of [Event]s.
    - What the host platform answers (streams granted or refused, encoder
      capabilities, canvas results) is a [Platform] record the callbacks
      are given; instants read from [Date.now()] are an argument [now],
      in milliseconds.
    - JavaScript strings are byte strings; [toLowerCase] acts on the ASCII
      letters. *)

From Stdlib Require Import List String Ascii Bool ZArith QArith Lia.
From Stdlib Require Import DecimalString.
Import ListNotations.

Local Open Scope string_scope.
Local Open Scope Z_scope.

(** ** JavaScript string operations used by the sources *)

Module Js.

(** The double-quote character, for codec-qualified format strings. *)
Definition dq : string := String (ascii_of_nat 34) EmptyString.

(** [s.includes(sub)] *)
Fixpoint includes (s sub : string) : bool :=
  if String.prefix sub s then true
  else match s with
       | EmptyString => false
       | String _ s' => includes s' sub
       end.

Fixpoint drop (n : nat) (s : string) : string :=
  match n, s with
  | O, _ => s
  | S n', String _ s' => drop n' s'
  | S _, EmptyString => EmptyString
  end.

(** [s.replace(pat, rep)] with a string pattern: the first occurrence only. *)
Fixpoint replace (s pat rep : string) : string :=
  if String.prefix pat s then rep ++ drop (String.length pat) s
  else match s with
       | EmptyString => EmptyString
       | String c s' => String c (replace s' pat rep)
       end.

Definition lower_ascii (c : ascii) : ascii :=
  let n := nat_of_ascii c in
  if (Nat.leb 65 n && Nat.leb n 90)%bool then ascii_of_nat (n + 32) else c.

(** [s.toLowerCase()] *)
Fixpoint toLowerCase (s : string) : string :=
  match s with
  | EmptyString => EmptyString
  | String c s' => String (lower_ascii c) (toLowerCase s')
  end.

(** [s.endsWith(suf)] *)
Fixpoint endsWith (s suf : string) : bool :=
  (String.eqb s suf ||
   match s with
   | EmptyString => false
   | String _ s' => endsWith s' suf
   end)%bool.

(** Truthiness of a string: the empty string is falsy. *)
Definition truthy (s : string) : bool := negb (String.eqb s "").

(** [a || b] on strings. *)
Definition or_str (a b : string) : string := if truthy a then a else b.

(** [opt || b] where [opt] may be [undefined]. *)
Definition or_undef (a : option string) (b : string) : string :=
  match a with
  | Some s => or_str s b
  | None => b
  end.

(** Template rendering of an integer instant. *)
Definition of_Z (z : Z) : string := NilZero.string_of_int (Z.to_int z).

End Js.

(** ** Data model (types.ts) *)

Inductive CaptureMode := Screenshot | ScreenVideo | AudioOnly | ScreenAndCam.
Inductive VideoContainer := Mp4 | Webm.
Inductive ImageFormat := Png | Jpeg.

Inductive RecorderStatus :=
  Idle | Permission | Acquiring | Recording | Paused | Stopped | Error.

Definition mode_name (m : CaptureMode) : string :=
  match m with
  | Screenshot => "screenshot"
  | ScreenVideo => "screen-video"
  | AudioOnly => "audio-only"
  | ScreenAndCam => "screen-and-cam"
  end.

Definition image_format_name (f : ImageFormat) : string :=
  match f with Png => "png" | Jpeg => "jpeg" end.

(** The fields of CaptureSettings that the controller and the negotiator
    read.  [imageFormat] and [jpegQuality] are optional because
    takeScreenshot accepts a Partial<CaptureSettings>. *)
Record CaptureSettings := {
  mode : CaptureMode;
  container : VideoContainer;
  includeMic : bool;
  includeSystemAudio : bool;
  imageFormat : option ImageFormat;
  jpegQuality : option Q;
  cameraDeviceId : option string
}.

Definition mode_eqb (a b : CaptureMode) : bool :=
  match a, b with
  | Screenshot, Screenshot | ScreenVideo, ScreenVideo
  | AudioOnly, AudioOnly | ScreenAndCam, ScreenAndCam => true
  | _, _ => false
  end.

(** ** Mime/container negotiator (utils/helpers.ts) *)

(** [MediaRecorder] as the negotiator sees it: absent ([None], the
    [typeof MediaRecorder === 'undefined'] case) or present with its
    [isTypeSupported] predicate. *)
Definition EncoderApi := option (string -> bool).

Definition isSupported (api : EncoderApi) (type : string) : bool :=
  match api with
  | None => false
  | Some isTypeSupported => isTypeSupported type
  end.

Definition audioCandidates : list string :=
  [ "audio/mp4; codecs=mp4a.40.2";
    "audio/mp4";
    "audio/webm; codecs=opus";
    "audio/webm";
    "audio/ogg; codecs=opus";
    "audio/ogg" ].

Definition videoCandidates (settings : CaptureSettings) : list string :=
  (match container settings with
   | Mp4 =>
       [ "video/mp4; codecs=" ++ Js.dq ++ "avc1.42E01E, mp4a.40.2" ++ Js.dq;
         "video/mp4; codecs=" ++ Js.dq ++ "avc1.64001E, mp4a.40.2" ++ Js.dq;
         "video/mp4";
         "video/webm; codecs=h264" ]
   | Webm => []
   end)
  ++ [ "video/webm; codecs=vp9";
       "video/webm; codecs=" ++ Js.dq ++ "vp9,opus" ++ Js.dq;
       "video/webm; codecs=vp8";
       "video/webm" ]
  ++ [ "video/mp4" ].

(** The ordered candidate list of a settings value. *)
Definition candidates (settings : CaptureSettings) : list string :=
  match mode settings with
  | AudioOnly => audioCandidates
  | _ => videoCandidates settings
  end.

Definition getSupportedMimeType (api : EncoderApi) (settings : CaptureSettings)
  : string :=
  match mode settings with
  | AudioOnly => Js.or_undef (find (isSupported api) audioCandidates) ""
  | _ => Js.or_undef (find (isSupported api) (videoCandidates settings)) ""
  end.

(** ** Streams, tracks and the other host objects *)

Inductive TrackKind := AudioTrack | VideoTrack.

(** Where a track comes from: a device (display capture, camera,
    microphone) or a synthesised source (the compositor's canvas capture,
    the mixer's destination node). *)
Inductive TrackOrigin :=
  FromDisplay | FromCamera | FromMicrophone | FromCanvas | FromMixer.

Record MediaStreamTrack := {
  origin : TrackOrigin;
  kind : TrackKind;
  trackId : nat
}.

(** A MediaStream is the list of its tracks. *)
Definition MediaStream := list MediaStreamTrack.

Definition is_audio (t : MediaStreamTrack) : bool :=
  match kind t with AudioTrack => true | VideoTrack => false end.

Definition is_video (t : MediaStreamTrack) : bool :=
  match kind t with VideoTrack => true | AudioTrack => false end.

Definition getTracks (s : MediaStream) : list MediaStreamTrack := s.
Definition getAudioTracks (s : MediaStream) : list MediaStreamTrack :=
  filter is_audio s.
Definition getVideoTracks (s : MediaStream) : list MediaStreamTrack :=
  filter is_video s.

Definition is_device_track (t : MediaStreamTrack) : bool :=
  match origin t with
  | FromDisplay | FromCamera | FromMicrophone => true
  | FromCanvas | FromMixer => false
  end.

Record Blob := {
  blob_size : N;
  blob_type : string
}.

(** [new Blob(parts, { type })] *)
Definition new_Blob (parts : list Blob) (type : string) : Blob :=
  {| blob_size := fold_right N.add 0%N (map blob_size parts);
     blob_type := type |}.

Inductive FileType := VideoFile | ImageFile | AudioFile.

(** CapturedFile.  [id] and [createdAt] hold the instant the source
    renders as an ISO string and as a Date; [duration] is in seconds. *)
Record CapturedFile := {
  id : Z;
  name : string;
  url : string;
  blob : Blob;
  type : FileType;
  createdAt : Z;
  duration : option Q
}.

(** A value thrown by the platform or by the controller: an object that
    is [instanceof Error] (Error, TypeError, DOMException), or any other
    value, with the [name] and [message] it may carry and its [String()]
    rendering. *)
Inductive Thrown :=
| ErrorObject (ename emessage : string)
| OtherValue (oname omessage : option string) (rendering : string).

Inductive RecorderState := Inactive | RecorderRecording | RecorderPaused.

(** The MediaRecorder instance held by mediaRecorderRef. *)
Record MediaRecorder := {
  rec_stream : MediaStream;
  rec_mimeType : string;
  rec_state : RecorderState
}.

(** Teardown callbacks pushed on cleanupCallbacks: the [cleanup] closure
    returned by setupVideoComposition (cancels the animation frame,
    pauses and detaches both video elements, removes the canvas) and the
    one returned by mixAudioTracks (disconnects every source node and
    closes the AudioContext). *)
Inductive Teardown :=
| VidCleanup (screen camera : MediaStream)
| AudioCleanup (sources : list MediaStream).

(** Stream requests made to navigator.mediaDevices. *)
Inductive Request :=
| ReqDisplay (audio : bool)             (* getDisplayMedia({video: true, audio}) *)
| ReqCamera (deviceId : option string)  (* getUserMedia({video: {...}, audio: false}) *)
| ReqMicrophone (processed : bool).     (* getUserMedia({audio: true | {echoCancellation, noiseSuppression}}) *)

Inductive RecorderOp := OpStart | OpStop | OpPause | OpResume.
Inductive ConsoleLevel := LogLevel | WarnLevel | ErrorLevel.

(** Effects a callback has outside the hook's own state, in order. *)
Inductive Event :=
| EvRequest (r : Request)
| EvTrackStop (t : MediaStreamTrack)
| EvTeardown (cb : Teardown)
| EvSetInterval (handle : positive)
| EvClearInterval (handle : positive)
| EvSetupComposition (screen camera : MediaStream)
| EvMixAudio (streams : list MediaStream)
| EvOnEnded (t : MediaStreamTrack)
| EvRecorder (op : RecorderOp)
| EvConsole (level : ConsoleLevel) (msg : string)
| EvOnStop (f : CapturedFile).

(** What the host platform answers. *)
Record Platform := {
  acquire : Request -> Thrown + MediaStream;
  mediaRecorderApi : EncoderApi;
  (* new MediaRecorder(stream, options): the negotiated mimeType, or a throw *)
  newMediaRecorder : MediaStream -> option string -> Thrown + string;
  (* recorder.start(1000) may throw *)
  recorderStart : option Thrown;
  (* the track of canvas.captureStream(30) *)
  canvasTrack : MediaStreamTrack;
  (* the track of the mixer's destination node *)
  mixedTrack : MediaStreamTrack;
  (* the handle window.setInterval returns for a call at a given instant *)
  setInterval : Z -> positive;
  createObjectURL : Blob -> string;
  (* canvas.getContext('2d') is non-null *)
  getContext2d : bool;
  (* canvas.toBlob(resolve, mimeType, quality) *)
  toBlob : string -> Q -> option Blob
}.

(** ** The hook's state *)

Record Hook := {
  status : RecorderStatus;
  error : option string;
  timer : Z;
  mediaRecorderRef : option MediaRecorder;
  streamRef : option MediaStream;
  recordedChunksRef : list Blob;
  timerIntervalRef : option positive;
  captureModeRef : option CaptureMode;
  startTimeRef : Z;
  activeMimeTypeRef : string;
  cleanupCallbacks : list Teardown
}.

(** The state of a freshly mounted hook. *)
Definition initial : Hook :=
  {| status := Idle; error := None; timer := 0;
     mediaRecorderRef := None; streamRef := None; recordedChunksRef := [];
     timerIntervalRef := None; captureModeRef := None; startTimeRef := 0;
     activeMimeTypeRef := ""; cleanupCallbacks := [] |}.

Definition setStatus (v : RecorderStatus) (h : Hook) : Hook :=
  {| status := v; error := error h; timer := timer h;
     mediaRecorderRef := mediaRecorderRef h; streamRef := streamRef h;
     recordedChunksRef := recordedChunksRef h;
     timerIntervalRef := timerIntervalRef h;
     captureModeRef := captureModeRef h; startTimeRef := startTimeRef h;
     activeMimeTypeRef := activeMimeTypeRef h;
     cleanupCallbacks := cleanupCallbacks h |}.

Definition setError (v : option string) (h : Hook) : Hook :=
  {| status := status h; error := v; timer := timer h;
     mediaRecorderRef := mediaRecorderRef h; streamRef := streamRef h;
     recordedChunksRef := recordedChunksRef h;
     timerIntervalRef := timerIntervalRef h;
     captureModeRef := captureModeRef h; startTimeRef := startTimeRef h;
     activeMimeTypeRef := activeMimeTypeRef h;
     cleanupCallbacks := cleanupCallbacks h |}.

Definition setTimer (v : Z) (h : Hook) : Hook :=
  {| status := status h; error := error h; timer := v;
     mediaRecorderRef := mediaRecorderRef h; streamRef := streamRef h;
     recordedChunksRef := recordedChunksRef h;
     timerIntervalRef := timerIntervalRef h;
     captureModeRef := captureModeRef h; startTimeRef := startTimeRef h;
     activeMimeTypeRef := activeMimeTypeRef h;
     cleanupCallbacks := cleanupCallbacks h |}.

Definition set_mediaRecorderRef (v : option MediaRecorder) (h : Hook) : Hook :=
  {| status := status h; error := error h; timer := timer h;
     mediaRecorderRef := v; streamRef := streamRef h;
     recordedChunksRef := recordedChunksRef h;
     timerIntervalRef := timerIntervalRef h;
     captureModeRef := captureModeRef h; startTimeRef := startTimeRef h;
     activeMimeTypeRef := activeMimeTypeRef h;
     cleanupCallbacks := cleanupCallbacks h |}.

Definition set_streamRef (v : option MediaStream) (h : Hook) : Hook :=
  {| status := status h; error := error h; timer := timer h;
     mediaRecorderRef := mediaRecorderRef h; streamRef := v;
     recordedChunksRef := recordedChunksRef h;
     timerIntervalRef := timerIntervalRef h;
     captureModeRef := captureModeRef h; startTimeRef := startTimeRef h;
     activeMimeTypeRef := activeMimeTypeRef h;
     cleanupCallbacks := cleanupCallbacks h |}.

Definition set_recordedChunksRef (v : list Blob) (h : Hook) : Hook :=
  {| status := status h; error := error h; timer := timer h;
     mediaRecorderRef := mediaRecorderRef h; streamRef := streamRef h;
     recordedChunksRef := v;
     timerIntervalRef := timerIntervalRef h;
     captureModeRef := captureModeRef h; startTimeRef := startTimeRef h;
     activeMimeTypeRef := activeMimeTypeRef h;
     cleanupCallbacks := cleanupCallbacks h |}.

Definition set_timerIntervalRef (v : option positive) (h : Hook) : Hook :=
  {| status := status h; error := error h; timer := timer h;
     mediaRecorderRef := mediaRecorderRef h; streamRef := streamRef h;
     recordedChunksRef := recordedChunksRef h;
     timerIntervalRef := v;
     captureModeRef := captureModeRef h; startTimeRef := startTimeRef h;
     activeMimeTypeRef := activeMimeTypeRef h;
     cleanupCallbacks := cleanupCallbacks h |}.

Definition set_captureModeRef (v : option CaptureMode) (h : Hook) : Hook :=
  {| status := status h; error := error h; timer := timer h;
     mediaRecorderRef := mediaRecorderRef h; streamRef := streamRef h;
     recordedChunksRef := recordedChunksRef h;
     timerIntervalRef := timerIntervalRef h;
     captureModeRef := v; startTimeRef := startTimeRef h;
     activeMimeTypeRef := activeMimeTypeRef h;
     cleanupCallbacks := cleanupCallbacks h |}.

Definition set_startTimeRef (v : Z) (h : Hook) : Hook :=
  {| status := status h; error := error h; timer := timer h;
     mediaRecorderRef := mediaRecorderRef h; streamRef := streamRef h;
     recordedChunksRef := recordedChunksRef h;
     timerIntervalRef := timerIntervalRef h;
     captureModeRef := captureModeRef h; startTimeRef := v;
     activeMimeTypeRef := activeMimeTypeRef h;
     cleanupCallbacks := cleanupCallbacks h |}.

Definition set_activeMimeTypeRef (v : string) (h : Hook) : Hook :=
  {| status := status h; error := error h; timer := timer h;
     mediaRecorderRef := mediaRecorderRef h; streamRef := streamRef h;
     recordedChunksRef := recordedChunksRef h;
     timerIntervalRef := timerIntervalRef h;
     captureModeRef := captureModeRef h; startTimeRef := startTimeRef h;
     activeMimeTypeRef := v;
     cleanupCallbacks := cleanupCallbacks h |}.

Definition set_cleanupCallbacks (v : list Teardown) (h : Hook) : Hook :=
  {| status := status h; error := error h; timer := timer h;
     mediaRecorderRef := mediaRecorderRef h; streamRef := streamRef h;
     recordedChunksRef := recordedChunksRef h;
     timerIntervalRef := timerIntervalRef h;
     captureModeRef := captureModeRef h; startTimeRef := startTimeRef h;
     activeMimeTypeRef := activeMimeTypeRef h;
     cleanupCallbacks := v |}.

(** ** The callback monad: state, exceptions and emitted effects *)

Inductive Result (A : Type) :=
| Ok (a : A)
| Throw (e : Thrown).
Arguments Ok {A} a.
Arguments Throw {A} e.

Record Out (A : Type) := mkOut {
  res : Result A;
  st : Hook;
  evs : list Event
}.
Arguments mkOut {A} res st evs.
Arguments res {A} o.
Arguments st {A} o.
Arguments evs {A} o.

Definition M (A : Type) := Hook -> Out A.

Definition ret {A} (a : A) : M A := fun h => mkOut (Ok a) h [].

Definition bind {A B} (m : M A) (k : A -> M B) : M B := fun h =>
  match m h with
  | mkOut (Ok a) h1 e1 =>
      match k a h1 with
      | mkOut r h2 e2 => mkOut r h2 (e1 ++ e2)%list
      end
  | mkOut (Throw e) h1 e1 => mkOut (Throw e) h1 e1
  end.

Definition throw {A} (e : Thrown) : M A := fun h => mkOut (Throw e) h [].

(** [try { m } catch (e) { handler e }] *)
Definition try_catch {A} (m : M A) (handler : Thrown -> M A) : M A := fun h =>
  match m h with
  | mkOut (Ok a) h1 e1 => mkOut (Ok a) h1 e1
  | mkOut (Throw e) h1 e1 =>
      match handler e h1 with
      | mkOut r h2 e2 => mkOut r h2 (e1 ++ e2)%list
      end
  end.

Definition get : M Hook := fun h => mkOut (Ok h) h [].
Definition modify (f : Hook -> Hook) : M unit := fun h => mkOut (Ok tt) (f h) [].
Definition emit (e : Event) : M unit := fun h => mkOut (Ok tt) h [e].

(** Awaiting a platform answer: the value, or the rejection thrown. *)
Definition await {A} (r : Thrown + A) : M A :=
  match r with
  | inl e => throw e
  | inr a => ret a
  end.

Declare Scope hook_scope.
Delimit Scope hook_scope with hook.
Notation "x <- m ;; k" := (bind m (fun x => k))
  (at level 61, m at next level, right associativity) : hook_scope.
Notation "m ;; k" := (bind m (fun _ => k))
  (at level 61, right associativity) : hook_scope.
Local Open Scope hook_scope.

(** [xs.forEach(f)] *)
Fixpoint forEach {A} (xs : list A) (f : A -> M unit) : M unit :=
  match xs with
  | [] => ret tt
  | x :: xs' => f x ;; forEach xs' f
  end.

Definition when (b : bool) (m : M unit) : M unit := if b then m else ret tt.

(** ** The recorder hook (useScreenRecorder) *)

Definition push_cleanupCallback (cb : Teardown) : M unit :=
  modify (fun h => set_cleanupCallbacks (cleanupCallbacks h ++ [cb])%list h).

Definition cleanup : M unit :=
  h <- get ;;
  match streamRef h with
  | Some stream =>
      forEach (getTracks stream) (fun track => emit (EvTrackStop track)) ;;
      modify (set_streamRef None)
  | None => ret tt
  end ;;
  h <- get ;;
  match mediaRecorderRef h with
  | Some _ => modify (set_mediaRecorderRef None)
  | None => ret tt
  end ;;
  h <- get ;;
  match timerIntervalRef h with
  | Some handle =>
      emit (EvClearInterval handle) ;;
      modify (set_timerIntervalRef None)
  | None => ret tt
  end ;;
  h <- get ;;
  forEach (cleanupCallbacks h) (fun cb => emit (EvTeardown cb)) ;;
  modify (set_cleanupCallbacks []) ;;
  modify (set_recordedChunksRef []) ;;
  modify (setTimer 0).

(** The encoder's dataavailable event, with the chunk it carries. *)
Definition handleDataAvailable (data : Blob) : M unit :=
  when (0 <? blob_size data)%N
    (modify (fun h => set_recordedChunksRef (recordedChunksRef h ++ [data])%list h)).

Definition status_eqb (a b : RecorderStatus) : bool :=
  match a, b with
  | Idle, Idle | Permission, Permission | Acquiring, Acquiring
  | Recording, Recording | Paused, Paused | Stopped, Stopped
  | Error, Error => true
  | _, _ => false
  end.

Definition is_audio_only (m : option CaptureMode) : bool :=
  match m with
  | Some AudioOnly => true
  | _ => false
  end.

(** The encoder's stop event. *)
Definition handleStop (p : Platform) (now : Z) : M unit :=
  h <- get ;;
  match recordedChunksRef h with
  | [] =>
      when (negb (status_eqb (status h) Error))
        (emit (EvConsole WarnLevel "No data recorded.")) ;;
      modify (setStatus Stopped) ;;
      cleanup
  | _ :: _ =>
      (* let mimeType = mediaRecorderRef.current?.mimeType *)
      let mimeType : option string := option_map rec_mimeType (mediaRecorderRef h) in
      let mimeType : string :=
        match mimeType with
        | Some m =>
            if Js.truthy m then m
            else if is_audio_only (captureModeRef h)
                 then Js.or_str (activeMimeTypeRef h) "audio/webm"
                 else Js.or_str (activeMimeTypeRef h) "video/webm"
        | None =>
            if is_audio_only (captureModeRef h)
            then Js.or_str (activeMimeTypeRef h) "audio/webm"
            else Js.or_str (activeMimeTypeRef h) "video/webm"
        end in
      let mimeType : string :=
        if (is_audio_only (captureModeRef h) && Js.includes mimeType "video")%bool
        then Js.replace mimeType "video" "audio"
        else mimeType in
      let blob := new_Blob (recordedChunksRef h) mimeType in
      let url := createObjectURL p blob in
      let duration := Qmake (now - startTimeRef h) 1000 in
      let fileType := if is_audio_only (captureModeRef h) then AudioFile else VideoFile in
      let fileExtension :=
        if Js.includes mimeType "mp4" then
          match fileType with AudioFile => "m4a" | _ => "mp4" end
        else if Js.includes mimeType "wav" then "wav"
        else if Js.includes mimeType "ogg" then "ogg"
        else if Js.includes mimeType "mp3" then "mp3"
        else if Js.includes mimeType "x-matroska" then "mkv"
        else if Js.includes mimeType "webm" then "webm"
        else "webm" in
      emit (EvOnStop {| id := now;
                        name := "recording-" ++ Js.of_Z now ++ "." ++ fileExtension;
                        url := url;
                        blob := blob;
                        type := fileType;
                        createdAt := now;
                        duration := Some duration |}) ;;
      modify (setStatus Stopped) ;;
      cleanup
  end.

Definition startTimer (p : Platform) (now : Z) : M unit :=
  modify (set_startTimeRef now) ;;
  emit (EvSetInterval (setInterval p now)) ;;
  modify (set_timerIntervalRef (Some (setInterval p now))).

(** One firing of the interval callback installed by [startTimer]; the
    interval fires only while it has not been cleared. *)
Definition timerTick (now : Z) : M unit :=
  h <- get ;;
  match timerIntervalRef h with
  | Some _ => modify (setTimer ((now - startTimeRef h) / 1000))
  | None => ret tt
  end.

Definition stopTimer : M unit :=
  h <- get ;;
  match timerIntervalRef h with
  | Some handle =>
      emit (EvClearInterval handle) ;;
      modify (set_timerIntervalRef None)
  | None => ret tt
  end.

(** *** Composition helpers *)

Definition setupVideoComposition (p : Platform)
    (screenStream cameraStream : MediaStream) : M (MediaStream * Teardown) :=
  emit (EvSetupComposition screenStream cameraStream) ;;
  ret ([canvasTrack p], VidCleanup screenStream cameraStream).

Definition mixAudioTracks (p : Platform) (streams : list MediaStream)
  : M (MediaStreamTrack * Teardown) :=
  emit (EvMixAudio streams) ;;
  let sources :=
    filter (fun stream => (0 <? List.length (getAudioTracks stream))%nat) streams in
  ret (mixedTrack p, AudioCleanup sources).

Definition option_to_list {A} (o : option A) : list A :=
  match o with
  | Some a => [a]
  | None => []
  end.

(** [screenStream.getVideoTracks()[0].onended = ...]: a TypeError when
    the stream has no video track. *)
Definition register_onended (stream : MediaStream) : M unit :=
  match getVideoTracks stream with
  | t :: _ => emit (EvOnEnded t)
  | [] => throw (ErrorObject "TypeError"
                   "Cannot set properties of undefined (setting 'onended')")
  end.

(** Steps 5 and the fallback of the screen-and-cam branch: mix the audio
    of the screen and microphone streams when there is any. *)
Definition mix_session_audio (p : Platform) (screenStream : MediaStream)
    (micStream : option MediaStream) : M (option MediaStreamTrack) :=
  let audioStreamsToMix :=
    ((if (0 <? List.length (getAudioTracks screenStream))%nat
      then [screenStream] else [])
     ++ option_to_list micStream)%list in
  if (0 <? List.length audioStreamsToMix)%nat then
    r <- mixAudioTracks p audioStreamsToMix ;;
    push_cleanupCallback (snd r) ;;
    ret (Some (fst r))
  else ret None.

Definition acquireScreenAndCam (p : Platform) (settings : CaptureSettings)
  : M MediaStream :=
  emit (EvRequest (ReqDisplay (includeSystemAudio settings))) ;;
  screenStream <- await (acquire p (ReqDisplay (includeSystemAudio settings))) ;;
  cameraStream <-
    try_catch
      (emit (EvRequest (ReqCamera (cameraDeviceId settings))) ;;
       s <- await (acquire p (ReqCamera (cameraDeviceId settings))) ;;
       ret (Some s))
      (fun e =>
         emit (EvConsole WarnLevel "Could not acquire camera for composition:") ;;
         ret None) ;;
  micStream <-
    (if includeMic settings then
       try_catch
         (emit (EvRequest (ReqMicrophone true)) ;;
          s <- await (acquire p (ReqMicrophone true)) ;;
          ret (Some s))
         (fun e =>
            emit (EvConsole WarnLevel "Could not acquire microphone:") ;;
            ret None)
     else ret None) ;;
  finalStream <-
    match cameraStream with
    | Some cameraStream =>
        r <- setupVideoComposition p screenStream cameraStream ;;
        push_cleanupCallback (snd r) ;;
        combinedAudioTrack <- mix_session_audio p screenStream micStream ;;
        ret (getVideoTracks (fst r) ++ option_to_list combinedAudioTrack)%list
    | None =>
        combinedAudioTrack <- mix_session_audio p screenStream micStream ;;
        ret (getVideoTracks screenStream ++ option_to_list combinedAudioTrack)%list
    end ;;
  register_onended screenStream ;;
  ret finalStream.

(** [settings.mode.includes('screen')] *)
Definition mode_includes_screen (settings : CaptureSettings) : bool :=
  Js.includes (mode_name (mode settings)) "screen".

Definition acquireStandard (p : Platform) (settings : CaptureSettings)
  : M MediaStream :=
  audioStream <-
    (if (includeMic settings || mode_eqb (mode settings) AudioOnly)%bool then
       try_catch
         (emit (EvRequest (ReqMicrophone false)) ;;
          s <- await (acquire p (ReqMicrophone false)) ;;
          ret (Some s))
         (fun e =>
            if mode_eqb (mode settings) AudioOnly then throw e
            else
              emit (EvConsole WarnLevel
                "Microphone access failed or was denied. Proceeding without microphone.") ;;
              ret None)
     else ret None) ;;
  videoStream <-
    (if mode_includes_screen settings then
       s <- try_catch
              (emit (EvRequest (ReqDisplay (includeSystemAudio settings))) ;;
               await (acquire p (ReqDisplay (includeSystemAudio settings))))
              (fun e =>
                 match audioStream with
                 | Some a => forEach (getTracks a) (fun t => emit (EvTrackStop t))
                 | None => ret tt
                 end ;;
                 throw e) ;;
       register_onended s ;;
       ret (Some s)
     else ret None) ;;
  let tracks :=
    (match videoStream with Some v => getTracks v | None => [] end
     ++ match audioStream with Some a => getTracks a | None => [] end)%list in
  match tracks with
  | [] => throw (ErrorObject "Error" "No media tracks were acquired.")
  | _ :: _ => ret tracks
  end.

(** [recorder.start(1000)] on the recorder held by mediaRecorderRef. *)
Definition recorder_start (p : Platform) : M unit :=
  emit (EvRecorder OpStart) ;;
  match recorderStart p with
  | Some e => throw e
  | None =>
      modify (fun h =>
        set_mediaRecorderRef
          (option_map (fun r => {| rec_stream := rec_stream r;
                                   rec_mimeType := rec_mimeType r;
                                   rec_state := RecorderRecording |})
                      (mediaRecorderRef h)) h)
  end.

(** The body of the try block of startRecording. *)
Definition startBody (p : Platform) (settings : CaptureSettings) (now : Z)
  : M unit :=
  finalStream <-
    (if mode_eqb (mode settings) ScreenAndCam
     then acquireScreenAndCam p settings
     else acquireStandard p settings) ;;
  modify (set_streamRef (Some finalStream)) ;;
  let mimeType := getSupportedMimeType (mediaRecorderApi p) settings in
  modify (set_activeMimeTypeRef (Js.or_str mimeType "")) ;;
  h <- get ;;
  let options :=
    if Js.truthy (activeMimeTypeRef h) then Some (activeMimeTypeRef h) else None in
  negotiated <- await (newMediaRecorder p finalStream options) ;;
  modify (set_mediaRecorderRef
            (Some {| rec_stream := finalStream;
                     rec_mimeType := negotiated;
                     rec_state := Inactive |})) ;;
  recorder_start p ;;
  startTimer p now ;;
  modify (setStatus Recording).

(** [err?.message?.toLowerCase() || ''] *)
Definition errorMessageOf (err : Thrown) : string :=
  match err with
  | ErrorObject _ m => Js.or_str (Js.toLowerCase m) ""
  | OtherValue _ (Some m) _ => Js.or_str (Js.toLowerCase m) ""
  | OtherValue _ None _ => ""
  end.

(** [err?.name || ''] *)
Definition errorNameOf (err : Thrown) : string :=
  match err with
  | ErrorObject n _ => Js.or_str n ""
  | OtherValue (Some n) _ _ => Js.or_str n ""
  | OtherValue None _ _ => ""
  end.

(** [err instanceof Error ? err.message : String(err)] *)
Definition displayMessageOf (err : Thrown) : string :=
  match err with
  | ErrorObject _ m => m
  | OtherValue _ _ s => s
  end.

Definition isPermissionError (err : Thrown) : bool :=
  (String.eqb (errorNameOf err) "NotAllowedError"
   || String.eqb (errorNameOf err) "PermissionDeniedError"
   || Js.includes (errorMessageOf err) "permission denied"
   || Js.includes (errorMessageOf err) "user denied"
   || Js.includes (errorMessageOf err) "declined"
   || Js.includes (errorMessageOf err) "cancelled")%bool.

(** The catch block of startRecording. *)
Definition startCatch (err : Thrown) : M unit :=
  cleanup ;;
  if isPermissionError err then
    emit (EvConsole LogLevel "Recording cancelled by user or permission denied.") ;;
    modify (setStatus Idle)
  else
    emit (EvConsole ErrorLevel "Failed to start recording:") ;;
    modify (setError (Some ("Failed to start recording: " ++ displayMessageOf err))) ;;
    modify (setStatus Error).

(** What startRecording does before entering its try block. *)
Definition startPrelude (settings : CaptureSettings) : M unit :=
  cleanup ;;
  modify (setStatus Acquiring) ;;
  modify (setError None) ;;
  modify (set_captureModeRef (Some (mode settings))).

Definition startRecording (p : Platform) (settings : CaptureSettings) (now : Z)
  : M unit :=
  h <- get ;;
  if (status_eqb (status h) Recording || status_eqb (status h) Acquiring)%bool
  then ret tt
  else
    startPrelude settings ;;
    try_catch (startBody p settings now) startCatch.

(** [recorder.stop()]: the recorder becomes inactive; the platform then
    delivers the last dataavailable event and the stop event. *)
Definition recorder_set_state (s : RecorderState) : M unit :=
  modify (fun h =>
    set_mediaRecorderRef
      (option_map (fun r => {| rec_stream := rec_stream r;
                               rec_mimeType := rec_mimeType r;
                               rec_state := s |})
                  (mediaRecorderRef h)) h).

Definition recorder_active (r : MediaRecorder) : bool :=
  match rec_state r with
  | Inactive => false
  | _ => true
  end.

Definition stopRecording : M unit :=
  h <- get ;;
  match mediaRecorderRef h with
  | Some r =>
      if recorder_active r then
        emit (EvRecorder OpStop) ;;
        recorder_set_state Inactive ;;
        stopTimer
      else if (status_eqb (status h) Recording || status_eqb (status h) Paused)%bool
      then cleanup ;; modify (setStatus Stopped)
      else ret tt
  | None =>
      if (status_eqb (status h) Recording || status_eqb (status h) Paused)%bool
      then cleanup ;; modify (setStatus Stopped)
      else ret tt
  end.

(** [recorder.pause()] and [recorder.resume()] throw an InvalidStateError
    on an inactive recorder. *)
Definition recorder_pause_resume (op : RecorderOp) (s : RecorderState) : M unit :=
  h <- get ;;
  match mediaRecorderRef h with
  | Some r =>
      if recorder_active r
      then emit (EvRecorder op) ;; recorder_set_state s
      else throw (ErrorObject "InvalidStateError" "The MediaRecorder's state is 'inactive'.")
  | None => ret tt
  end.

Definition pauseRecording : M unit :=
  h <- get ;;
  match mediaRecorderRef h with
  | Some _ =>
      if status_eqb (status h) Recording then
        recorder_pause_resume OpPause RecorderPaused ;;
        stopTimer ;;
        modify (setStatus Paused)
      else ret tt
  | None => ret tt
  end.

Definition resumeRecording (p : Platform) (now : Z) : M unit :=
  h <- get ;;
  match mediaRecorderRef h with
  | Some _ =>
      if status_eqb (status h) Paused then
        recorder_pause_resume OpResume RecorderRecording ;;
        modify (set_startTimeRef (now - timer h * 1000)) ;;
        startTimer p now ;;
        modify (setStatus Recording)
      else ret tt
  | None => ret tt
  end.

(** The catch block of takeScreenshot; [stream] is the local variable of
    that name as it stands when the error is thrown. *)
Definition screenshotCatch (stream : option MediaStream) (err : Thrown) : M unit :=
  match stream with
  | Some s => forEach (getTracks s) (fun track => emit (EvTrackStop track))
  | None => ret tt
  end ;;
  if (String.eqb (errorNameOf err) "NotAllowedError"
      || String.eqb (errorNameOf err) "PermissionDeniedError"
      || Js.includes (errorMessageOf err) "permission denied")%bool
  then ret tt
  else modify (setError (Some ("Screenshot failed: " ++ displayMessageOf err))).

(** [settings.imageFormat === 'jpeg' ? 'image/jpeg' : 'image/png'] *)
Definition screenshotMimeType (settings : CaptureSettings) : string :=
  match imageFormat settings with
  | Some Jpeg => "image/jpeg"
  | _ => "image/png"
  end.

(** [settings.jpegQuality ?? 0.9] *)
Definition screenshotQuality (settings : CaptureSettings) : Q :=
  match jpegQuality settings with
  | Some q => q
  | None => Qmake 9 10
  end.

Definition takeScreenshot (p : Platform) (settings : CaptureSettings) (now : Z)
  : M unit :=
  emit (EvRequest (ReqDisplay false)) ;;
  match acquire p (ReqDisplay false) with
  | inl err => screenshotCatch None err
  | inr stream =>
      if getContext2d p then
        forEach (getTracks stream) (fun track => emit (EvTrackStop track)) ;;
        let mimeType := screenshotMimeType settings in
        let quality := screenshotQuality settings in
        match toBlob p mimeType quality with
        | Some blob =>
            let url := createObjectURL p blob in
            emit (EvOnStop
                    {| id := now;
                       name := "screenshot-" ++ Js.of_Z now ++ "."
                               ++ match imageFormat settings with
                                  | Some f => image_format_name f
                                  | None => "png"
                                  end;
                       url := url;
                       blob := blob;
                       type := ImageFile;
                       createdAt := now;
                       duration := None |})
        | None =>
            screenshotCatch None (ErrorObject "Error" "Failed to create blob from canvas.")
        end
      else
        screenshotCatch (Some stream) (ErrorObject "Error" "Could not get canvas context")
  end.

(** The effect cleanup of the hook: [useEffect(() => () => cleanup())]. *)
Definition unmount : M unit := cleanup.

(** ** Observations on effect logs *)

Definition invoked_teardowns (es : list Event) : list Teardown :=
  flat_map (fun e => match e with EvTeardown cb => [cb] | _ => [] end) es.

Definition stopped_tracks (es : list Event) : list MediaStreamTrack :=
  flat_map (fun e => match e with EvTrackStop t => [t] | _ => [] end) es.

Definition emitted_files (es : list Event) : list CapturedFile :=
  flat_map (fun e => match e with EvOnStop f => [f] | _ => [] end) es.

Definition requests (es : list Event) : list Request :=
  flat_map (fun e => match e with EvRequest r => [r] | _ => [] end) es.

Definition is_microphone_request (r : Request) : bool :=
  match r with
  | ReqMicrophone _ => true
  | _ => false
  end.

(** Every event a computation emits, from any state, satisfies [P]. *)
Definition emits_only {A} (P : Event -> Prop) (m : M A) : Prop :=
  forall h, Forall P (evs (m h)).

(** An effect that is not a microphone request and that asks for system
    audio, if at all, on the display request with the given flag. *)
Definition microphone_free (systemAudio : bool) (e : Event) : Prop :=
  match e with
  | EvRequest (ReqMicrophone _) => False
  | EvRequest (ReqDisplay a) => a = systemAudio
  | _ => True
  end.

(** An effect other than the completion callback. *)
Definition not_onStop (e : Event) : Prop :=
  match e with
  | EvOnStop _ => False
  | _ => True
  end.

(** A computation leaves an observation of the state as it found it. *)
Definition preserves {A X} (proj : Hook -> X) (m : M A) : Prop :=
  forall h, proj (st (m h)) = proj h.

(** No session resource is held: what [cleanup] leaves behind. *)
Definition released (h : Hook) : Prop :=
  streamRef h = None /\ mediaRecorderRef h = None /\
  timerIntervalRef h = None /\ cleanupCallbacks h = [] /\
  recordedChunksRef h = [] /\ timer h = 0.

(** The state [cleanup] leaves, written out. *)
Definition cleaned (h : Hook) : Hook :=
  {| status := status h; error := error h; timer := 0;
     mediaRecorderRef := None; streamRef := None; recordedChunksRef := [];
     timerIntervalRef := None; captureModeRef := captureModeRef h;
     startTimeRef := startTimeRef h;
     activeMimeTypeRef := activeMimeTypeRef h; cleanupCallbacks := [] |}.

(** The state in which startRecording enters its try block. *)
Definition acquiring_state (settings : CaptureSettings) (h : Hook) : Hook :=
  set_captureModeRef (Some (mode settings))
    (setError None (setStatus Acquiring (cleaned h))).

(** The effects of [cleanup], written out. *)
Definition cleanup_events (h : Hook) : list Event :=
  (match streamRef h with
   | Some s => map EvTrackStop s
   | None => []
   end
   ++ match timerIntervalRef h with
      | Some handle => [EvClearInterval handle]
      | None => []
      end
   ++ map EvTeardown (cleanupCallbacks h))%list.

(** [n] successive calls of a callback; the events of all of them. *)
Fixpoint repeat_call (m : M unit) (n : nat) : M unit :=
  match n with
  | O => ret tt
  | S n' => m ;; repeat_call m n'
  end.

(** *** Finalization, in the words of the specification *)

(** The first non-empty string of a preference list. *)
Fixpoint first_nonempty (l : list string) : string :=
  match l with
  | [] => ""
  | s :: l' => if String.eqb s "" then first_nonempty l' else s
  end.

(** Resolved format: the encoder's actual format, else the requested one,
    else the per-mode default; an audio-only session never keeps a video
    type. *)
Definition spec_resolved_format (actual requested : string) (audioOnly : bool)
  : string :=
  let fmt :=
    first_nonempty
      [actual; requested; if audioOnly then "audio/webm" else "video/webm"] in
  if (audioOnly && Js.includes fmt "video")%bool
  then Js.replace fmt "video" "audio"
  else fmt.

(** Extension by known substrings of the resolved format. *)
Definition spec_extension (fmt : string) (audioOnly : bool) : string :=
  if Js.includes fmt "mp4" then (if audioOnly then "m4a" else "mp4")
  else if Js.includes fmt "wav" then "wav"
  else if Js.includes fmt "ogg" then "ogg"
  else if Js.includes fmt "mp3" then "mp3"
  else if Js.includes fmt "x-matroska" then "mkv"
  else "webm".

(** The encoder's negotiated format as finalization reads it. *)
Definition actual_format (h : Hook) : string :=
  match mediaRecorderRef h with
  | Some r => rec_mimeType r
  | None => ""
  end.

(** The file handed to onStop by a finalization with recorded chunks. *)
Definition finalized_file (p : Platform) (now : Z) (h : Hook) : CapturedFile :=
  let audio := is_audio_only (captureModeRef h) in
  let fmt := spec_resolved_format (actual_format h) (activeMimeTypeRef h) audio in
  {| id := now;
     name := "recording-" ++ Js.of_Z now ++ "." ++ spec_extension fmt audio;
     url := createObjectURL p (new_Blob (recordedChunksRef h) fmt);
     blob := new_Blob (recordedChunksRef h) fmt;
     type := if audio then AudioFile else VideoFile;
     createdAt := now;
     duration := Some (Qmake (now - startTimeRef h) 1000) |}.

(** *** Scenarios *)

Definition screenVideoTrack : MediaStreamTrack :=
  {| origin := FromDisplay; kind := VideoTrack; trackId := 1 |}.
Definition screenAudioTrack : MediaStreamTrack :=
  {| origin := FromDisplay; kind := AudioTrack; trackId := 2 |}.
Definition cameraTrack : MediaStreamTrack :=
  {| origin := FromCamera; kind := VideoTrack; trackId := 3 |}.
Definition micTrack : MediaStreamTrack :=
  {| origin := FromMicrophone; kind := AudioTrack; trackId := 4 |}.
Definition composedTrack : MediaStreamTrack :=
  {| origin := FromCanvas; kind := VideoTrack; trackId := 5 |}.
Definition mixTrack : MediaStreamTrack :=
  {| origin := FromMixer; kind := AudioTrack; trackId := 6 |}.

(** A platform that grants every request, with system audio when asked,
    and whose encoder takes the requested format (WebM when none is). *)
Definition granting : Platform :=
  {| acquire := fun r =>
       match r with
       | ReqDisplay true => inr [screenVideoTrack; screenAudioTrack]
       | ReqDisplay false => inr [screenVideoTrack]
       | ReqCamera _ => inr [cameraTrack]
       | ReqMicrophone _ => inr [micTrack]
       end;
     mediaRecorderApi := Some (fun t => Js.includes t "webm");
     newMediaRecorder := fun _ options =>
       inr match options with Some m => m | None => "video/webm" end;
     recorderStart := None;
     canvasTrack := composedTrack;
     mixedTrack := mixTrack;
     setInterval := fun _ => 1%positive;
     createObjectURL := fun _ => "blob:capture";
     getContext2d := true;
     toBlob := fun m _ => Some {| blob_size := 1000; blob_type := m |} |}.

(** The same platform with the microphone refused by the error [e]. *)
Definition refusing_microphone (e : Thrown) : Platform :=
  {| acquire := fun r =>
       match r with
       | ReqMicrophone _ => inl e
       | _ => acquire granting r
       end;
     mediaRecorderApi := mediaRecorderApi granting;
     newMediaRecorder := newMediaRecorder granting;
     recorderStart := recorderStart granting;
     canvasTrack := canvasTrack granting;
     mixedTrack := mixedTrack granting;
     setInterval := setInterval granting;
     createObjectURL := createObjectURL granting;
     getContext2d := getContext2d granting;
     toBlob := toBlob granting |}.

Definition settings_of (m : CaptureMode) (mic : bool) : CaptureSettings :=
  {| mode := m; container := Webm; includeMic := mic;
     includeSystemAudio := true; imageFormat := Some Jpeg;
     jpegQuality := Some (Qmake 1 2); cameraDeviceId := None |}.

Definition chunk : Blob := {| blob_size := 4096; blob_type := "" |}.

(** A recording whose encoder settled on MP4 although WebM was requested. *)
Definition substituted_format : Hook :=
  {| status := Recording; error := None; timer := 3;
     mediaRecorderRef :=
       Some {| rec_stream := [screenVideoTrack];
               rec_mimeType := "video/mp4";
               rec_state := RecorderRecording |};
     streamRef := Some [screenVideoTrack];
     recordedChunksRef := [chunk];
     timerIntervalRef := Some 1%positive;
     captureModeRef := Some ScreenVideo; startTimeRef := 0;
     activeMimeTypeRef := "video/webm"; cleanupCallbacks := [] |}.

(** An encoder that supports plain WebM video and nothing else. *)
Definition plain_webm_only : EncoderApi :=
  Some (fun t => String.eqb t "video/webm").

(** A dismissed permission prompt, and a device that is not there. *)
Definition cancelled : Thrown :=
  ErrorObject "NotAllowedError" "Permission dismissed".
Definition missing : Thrown :=
  ErrorObject "NotFoundError" "Requested device not found".

(** An audio-only start on a platform that refuses the microphone. *)
Definition audio_only_refused (e : Thrown) : Out unit :=
  startRecording (refusing_microphone e) (settings_of AudioOnly true) 0 initial.

(** Callbacks run one after the other, as the event loop delivers them;
    an uncaught throw ends the run. *)
Fixpoint sequence (ms : list (M unit)) : M unit :=
  match ms with
  | [] => ret tt
  | m :: ms' => m ;; sequence ms'
  end.

(** The interval firing once a second from [from] to [to] seconds. *)
Definition ticks (from to : nat) : list (M unit) :=
  map (fun k => timerTick (Z.of_nat k * 1000)) (seq from (S to - from)).

(** A screen-and-camera session with microphone and system audio,
    stopped by the user after five seconds. *)
Definition screen_and_cam_session : M unit :=
  sequence
    ([startRecording granting (settings_of ScreenAndCam true) 0]
     ++ ticks 1 5
     ++ [handleDataAvailable chunk; stopRecording; handleStop granting 5000]).

(** The same session in screen-video mode. *)
Definition screen_video_session : M unit :=
  sequence
    ([startRecording granting (settings_of ScreenVideo true) 0]
     ++ ticks 1 5
     ++ [handleDataAvailable chunk; stopRecording; handleStop granting 5000]).

(** Ten seconds of screen recording, then a pause. *)
Definition paused_at_ten_seconds : Hook :=
  st (sequence
        ([startRecording granting (settings_of ScreenVideo false) 0]
         ++ ticks 1 10
         ++ [handleDataAvailable chunk; pauseRecording]) initial).

(** ** The life of a hook *)

(** The test by which takeScreenshot's catch block swallows an error. *)
Definition isScreenshotCancellation (err : Thrown) : bool :=
  (String.eqb (errorNameOf err) "NotAllowedError"
   || String.eqb (errorNameOf err) "PermissionDeniedError"
   || Js.includes (errorMessageOf err) "permission denied")%bool.

(** One callback of the hook, run to completion, with whatever the
    platform answers at that moment. *)
Inductive step : Hook -> Hook -> Prop :=
| step_start (p : Platform) (settings : CaptureSettings) (now : Z) (h : Hook) :
    step h (st (startRecording p settings now h))
| step_stop (h : Hook) :
    step h (st (stopRecording h))
| step_pause (h : Hook) :
    step h (st (pauseRecording h))
| step_resume (p : Platform) (now : Z) (h : Hook) :
    step h (st (resumeRecording p now h))
| step_tick (now : Z) (h : Hook) :
    step h (st (timerTick now h))
| step_data (data : Blob) (h : Hook) :
    step h (st (handleDataAvailable data h))
| step_encoder_stop (p : Platform) (now : Z) (h : Hook) :
    step h (st (handleStop p now h))
| step_screenshot (p : Platform) (settings : CaptureSettings) (now : Z) (h : Hook) :
    step h (st (takeScreenshot p settings now h))
| step_unmount (h : Hook) :
    step h (st (unmount h)).

(** States the hook can be in after any number of callbacks. *)
Inductive reachable : Hook -> Prop :=
| reachable_initial : reachable initial
| reachable_step (h h' : Hook) : reachable h -> step h h' -> reachable h'.

(** The interval of the elapsed-time clock is live only while the status
    is recording and an active encoder is held, and a held encoder
    records the stream held in streamRef. *)
Definition clock_and_encoder_consistent (h : Hook) : Prop :=
  (timerIntervalRef h <> None ->
   status h = Recording
   /\ exists r, mediaRecorderRef h = Some r /\ recorder_active r = true)
  /\ (forall r, mediaRecorderRef h = Some r -> streamRef h = Some (rec_stream r)).

(** The chunks of a list of dataavailable events that carry data. *)
Definition with_data (datas : list Blob) : list Blob :=
  filter (fun d => (0 <? blob_size d)%N) datas.

(** Total size of a list of chunks. *)
Definition total_size (datas : list Blob) : N :=
  fold_right N.add 0%N (map blob_size datas).

(** The granting platform with the display capture refused by [e]. *)
Definition refusing_display (e : Thrown) : Platform :=
  {| acquire := fun r =>
       match r with
       | ReqDisplay _ => inl e
       | _ => acquire granting r
       end;
     mediaRecorderApi := mediaRecorderApi granting;
     newMediaRecorder := newMediaRecorder granting;
     recorderStart := recorderStart granting;
     canvasTrack := canvasTrack granting;
     mixedTrack := mixedTrack granting;
     setInterval := setInterval granting;
     createObjectURL := createObjectURL granting;
     getContext2d := getContext2d granting;
     toBlob := toBlob granting |}.

(** The granting platform with the camera refused by [e]. *)
Definition refusing_camera (e : Thrown) : Platform :=
  {| acquire := fun r =>
       match r with
       | ReqCamera _ => inl e
       | _ => acquire granting r
       end;
     mediaRecorderApi := mediaRecorderApi granting;
     newMediaRecorder := newMediaRecorder granting;
     recorderStart := recorderStart granting;
     canvasTrack := canvasTrack granting;
     mixedTrack := mixedTrack granting;
     setInterval := setInterval granting;
     createObjectURL := createObjectURL granting;
     getContext2d := getContext2d granting;
     toBlob := toBlob granting |}.

(** An effect other than an invocation of the compositor. *)
Definition not_composition (e : Event) : Prop :=
  match e with
  | EvSetupComposition _ _ => False
  | _ => True
  end.

(** A teardown callback other than the compositor's. *)
Definition not_vidCleanup (cb : Teardown) : Prop :=
  match cb with
  | VidCleanup _ _ => False
  | AudioCleanup _ => True
  end.

(** Five seconds of screen recording with one chunk delivered. *)
Definition recording_five_seconds : Hook :=
  st (sequence
        ([startRecording granting (settings_of ScreenVideo false) 0]
         ++ ticks 1 5 ++ [handleDataAvailable chunk]) initial).

(** ** Elapsed-time display (utils/helpers.ts) *)

(** [s.padStart(targetLength, c)] for a one-character pad string. *)
Fixpoint pad_left (n : nat) (c : ascii) (s : string) : string :=
  match n with
  | O => s
  | S n' => String c (pad_left n' c s)
  end.

Definition padStart (targetLength : nat) (c : ascii) (s : string) : string :=
  pad_left (targetLength - String.length s) c s.

(** formatTime on a whole number of seconds, as the timer supplies it:
    [Math.floor] of the quotient is [Z.div], [%] is [Z.rem]. *)
Definition formatTime (seconds : Z) : string :=
  let h := padStart 2 "0"%char (Js.of_Z (seconds / 3600)) in
  let m := padStart 2 "0"%char (Js.of_Z (Z.rem seconds 3600 / 60)) in
  let s := padStart 2 "0"%char (Js.of_Z (Z.rem seconds 60)) in
  h ++ ":" ++ m ++ ":" ++ s.

(** A two-character field of the display. *)
Definition two_digits (n : Z) : string := padStart 2 "0"%char (Js.of_Z n).

(** ** The application shell (App.tsx) *)

Inductive View := PermissionsView | CaptureView | GalleryView | EditorView.

Record App := {
  view : View;
  capturedFiles : list CapturedFile;
  selectedFile : option CapturedFile
}.

Definition app_initial : App :=
  {| view := PermissionsView; capturedFiles := []; selectedFile := None |}.

Definition setView (v : View) (a : App) : App :=
  {| view := v; capturedFiles := capturedFiles a; selectedFile := selectedFile a |}.

Definition handlePermissionsGranted (a : App) : App := setView CaptureView a.

(** The onStop callback handed to the hook. *)
Definition addCapturedFile (file : CapturedFile) (a : App) : App :=
  {| view := GalleryView;
     capturedFiles := file :: capturedFiles a;
     selectedFile := selectedFile a |}.

Definition handleSelectFile (file : CapturedFile) (a : App) : App :=
  {| view := EditorView;
     capturedFiles := capturedFiles a;
     selectedFile := Some file |}.

Definition handleCloseEditor (a : App) : App :=
  {| view := GalleryView;
     capturedFiles := capturedFiles a;
     selectedFile := None |}.

Definition handleDeleteFile (fileId : Z) (a : App) : App :=
  let a' :=
    {| view := view a;
       capturedFiles := filter (fun f => negb (id f =? fileId)) (capturedFiles a);
       selectedFile := selectedFile a |} in
  match selectedFile a with
  | Some f => if id f =? fileId then handleCloseEditor a' else a'
  | None => a'
  end.

(** What the user and the hook can do to the shell: the gallery offers
    for selection the files of the list; the header switches to the
    capture and gallery views. *)
Inductive app_step : App -> App -> Prop :=
| app_granted (a : App) : app_step a (handlePermissionsGranted a)
| app_add (file : CapturedFile) (a : App) : app_step a (addCapturedFile file a)
| app_select (file : CapturedFile) (a : App) :
    In file (capturedFiles a) -> app_step a (handleSelectFile file a)
| app_close (a : App) : app_step a (handleCloseEditor a)
| app_delete (fileId : Z) (a : App) : app_step a (handleDeleteFile fileId a)
| app_nav_capture (a : App) : app_step a (setView CaptureView a)
| app_nav_gallery (a : App) : app_step a (setView GalleryView a).

Inductive app_reachable : App -> Prop :=
| app_reachable_initial : app_reachable app_initial
| app_reachable_step (a a' : App) :
    app_reachable a -> app_step a a' -> app_reachable a'.

(** The editor view has a file to show, and a selected file is one of
    the captured files. *)
Definition selection_valid (a : App) : Prop :=
  (view a = EditorView -> selectedFile a <> None)
  /\ (forall f, selectedFile a = Some f -> In f (capturedFiles a)).

(** The shell after the hook has handed over the files of a log. *)
Definition deliver (es : list Event) (a : App) : App :=
  fold_left (fun acc f => addCapturedFile f acc) (emitted_files es) a.

(** * Properties *)

(** ** The negotiator *)

Section Find.
Context {A : Type} (f : A -> bool).

Lemma find_first (l : list A) (x : A) :
  find f l = Some x ->
  exists before after,
    l = (before ++ x :: after)%list /\ f x = true /\
    forall y, In y before -> f y = false.
Proof.
  induction l as [|a l IH]; simpl; [discriminate|].
  destruct (f a) eqn:Ha.
  - intros [= ->]. exists [], l. repeat split; auto. intros y [].
  - intros Hx. destruct (IH Hx) as (b & c & -> & Hfx & Hb).
    exists (a :: b), c. repeat split; auto.
    intros y [<-|Hy]; auto.
Qed.

Lemma find_ext (g : A -> bool) (l : list A) :
  (forall y, In y l -> g y = f y) -> find g l = find f l.
Proof.
  induction l as [|a l IH]; simpl; intros H; [reflexivity|].
  rewrite (H a (or_introl eq_refl)).
  destruct (f a); [reflexivity|]. apply IH. intros y Hy. apply H. now right.
Qed.
End Find.

Lemma candidates_truthy (settings : CaptureSettings) :
  forall c, In c (candidates settings) -> Js.truthy c = true.
Proof.
  intros c. unfold candidates, videoCandidates.
  destruct (mode settings), (container settings); simpl;
    intros H; repeat (destruct H as [<-|H]; [reflexivity|]); destruct H.
Qed.

Lemma getSupportedMimeType_find (api : EncoderApi) (settings : CaptureSettings) :
  getSupportedMimeType api settings =
  match find (isSupported api) (candidates settings) with
  | Some c => c
  | None => ""
  end.
Proof.
  assert (E : getSupportedMimeType api settings =
              Js.or_undef (find (isSupported api) (candidates settings)) "").
  { unfold getSupportedMimeType, candidates. now destruct (mode settings). }
  rewrite E. destruct (find _ _) as [c|] eqn:F; simpl; [|reflexivity].
  apply find_some in F. destruct F as [Hin _].
  unfold Js.or_str. now rewrite (candidates_truthy settings c Hin).
Qed.

(** C5: getSupportedMimeType returns the first element of the candidate
    list of the settings that the platform reports as supported, or the
    empty string when it supports none (in particular when MediaRecorder
    is absent); a non-empty result is always a candidate; and the result
    depends only on the settings and on what the platform supports among
    the candidates. *)
Theorem getSupportedMimeType_first_supported :
  forall (api : EncoderApi) (settings : CaptureSettings),
    let r := getSupportedMimeType api settings in
    ((r = "" /\ forall c, In c (candidates settings) -> isSupported api c = false)
     \/ (exists before after,
           candidates settings = (before ++ r :: after)%list
           /\ isSupported api r = true
           /\ forall c, In c before -> isSupported api c = false))
    /\ (api = None -> r = "")
    /\ (r = "" \/ In r (candidates settings))
    /\ (forall api',
          (forall c, In c (candidates settings) ->
                     isSupported api' c = isSupported api c) ->
          getSupportedMimeType api' settings = r).
Proof.
  intros api settings r. subst r.
  rewrite getSupportedMimeType_find.
  destruct (find (isSupported api) (candidates settings)) as [c|] eqn:F.
  - destruct (find_first _ _ _ F) as (b & a & E & Hc & Hb).
    split; [|split; [|split]].
    + right. exists b, a. auto.
    + intros ->. apply find_some in F. now destruct F.
    + right. rewrite E. apply in_or_app. right. now left.
    + intros api' H. rewrite getSupportedMimeType_find.
      now rewrite (find_ext _ _ _ H), F.
  - split; [|split; [|split]].
    + left. split; [reflexivity|]. intros c Hc.
      apply (find_none _ _ F c Hc).
    + reflexivity.
    + now left.
    + intros api' H. rewrite getSupportedMimeType_find.
      now rewrite (find_ext _ _ _ H), F.
Qed.

(** A witness of C5: a platform that encodes only plain WebM video. *)
Lemma getSupportedMimeType_first_supported_witness :
  getSupportedMimeType plain_webm_only (settings_of ScreenVideo true)
  = "video/webm"
  /\ (getSupportedMimeType plain_webm_only (settings_of ScreenVideo true) = ""
      \/ In (getSupportedMimeType plain_webm_only (settings_of ScreenVideo true))
            (candidates (settings_of ScreenVideo true))).
Proof.
  split; [reflexivity|].
  exact (proj1 (proj2 (proj2
           (getSupportedMimeType_first_supported plain_webm_only
              (settings_of ScreenVideo true))))).
Defined.

(** ** Running callbacks *)

Lemma forEach_emit {A} (f : A -> Event) (l : list A) (h : Hook) :
  forEach l (fun x => emit (f x)) h = mkOut (Ok tt) h (map f l).
Proof.
  induction l as [|a l IH]; [reflexivity|].
  cbn [forEach]. unfold bind.
  change (emit (f a) h) with (mkOut (Ok tt) h [f a]). cbn iota.
  rewrite IH. reflexivity.
Qed.

Lemma cleanup_run (h : Hook) :
  cleanup h = mkOut (Ok tt) (cleaned h) (cleanup_events h).
Proof.
  unfold cleanup, cleanup_events, cleaned.
  destruct h as [s e t r sr ch ti cm stt am cbs].
  destruct sr as [stream|], r as [rcd|], ti as [handle|];
    unfold bind, get, getTracks; cbn -[forEach]; rewrite ?forEach_emit;
    cbn -[forEach]; rewrite ?forEach_emit; cbn;
    rewrite ?app_nil_r; reflexivity.
Qed.

Lemma cleaned_released (h : Hook) : released (cleaned h).
Proof. repeat split. Qed.

Lemma released_cleaned (h : Hook) : released h -> cleaned h = h.
Proof.
  destruct h; unfold released, cleaned; cbn.
  intros (-> & -> & -> & -> & -> & ->). reflexivity.
Qed.

Lemma released_no_events (h : Hook) : released h -> cleanup_events h = [].
Proof.
  destruct h; unfold released, cleanup_events; cbn.
  intros (-> & -> & -> & -> & -> & ->). reflexivity.
Qed.

Lemma invoked_teardowns_app (a b : list Event) :
  invoked_teardowns (a ++ b) = (invoked_teardowns a ++ invoked_teardowns b)%list.
Proof. apply flat_map_app. Qed.

Lemma invoked_teardowns_cleanup (h : Hook) :
  invoked_teardowns (cleanup_events h) = cleanupCallbacks h.
Proof.
  unfold cleanup_events. rewrite !invoked_teardowns_app.
  assert (E1 : forall l, invoked_teardowns (map EvTrackStop l) = []).
  { induction l; simpl; auto. }
  assert (E2 : forall l, invoked_teardowns (map EvTeardown l) = l).
  { induction l; simpl; [auto|]. unfold invoked_teardowns in *. simpl. now f_equal. }
  rewrite E2. destruct (streamRef h), (timerIntervalRef h); rewrite ?E1; reflexivity.
Qed.

Lemma repeat_cleanup_run (n : nat) (h : Hook) :
  repeat_call cleanup (S n) h = mkOut (Ok tt) (cleaned h) (cleanup_events h).
Proof.
  revert h. induction n as [|n IH]; intros h.
  - cbn [repeat_call]. unfold bind. rewrite cleanup_run. cbn.
    now rewrite app_nil_r.
  - change (repeat_call cleanup (S (S n))) with (cleanup ;; repeat_call cleanup (S n)).
    unfold bind. rewrite cleanup_run. cbn iota. rewrite IH.
    rewrite (released_no_events (cleaned h) (cleaned_released h)).
    rewrite (released_cleaned (cleaned h) (cleaned_released h)).
    now rewrite app_nil_r.
Qed.

(** ** The state machine *)

(** C1: a start command issued while the status is acquiring or
    recording returns at once: no field of the hook changes (status,
    error, timer, stream, encoder, chunk list, teardown callbacks) and
    nothing is requested from the platform. *)
Theorem startRecording_noop_when_active :
  forall (p : Platform) (settings : CaptureSettings) (now : Z) (h : Hook),
    status h = Acquiring \/ status h = Recording ->
    startRecording p settings now h = mkOut (Ok tt) h [].
Proof.
  intros p settings now h H.
  unfold startRecording, bind, get.
  destruct H as [-> | ->]; reflexivity.
Qed.

(** A witness of C1: a start command during a recording. *)
Lemma startRecording_noop_when_active_witness :
  startRecording granting (settings_of ScreenVideo true) 7000 substituted_format
  = mkOut (Ok tt) substituted_format [].
Proof.
  apply (startRecording_noop_when_active granting (settings_of ScreenVideo true)
           7000 substituted_format).
  right. reflexivity.
Defined.

(** C8: cleanup is idempotent.  A second call in a row changes nothing
    and has no effect; so does a call when nothing is held; and over any
    number of successive calls each registered teardown callback is
    invoked exactly once, in registration order. *)
Theorem cleanup_idempotent :
  forall (h : Hook),
    let o1 := cleanup h in
    let o2 := cleanup (st o1) in
    res o1 = Ok tt /\ res o2 = Ok tt /\ st o2 = st o1 /\ evs o2 = []
    /\ invoked_teardowns (evs o1 ++ evs o2) = cleanupCallbacks h
    /\ (forall n, invoked_teardowns (evs (repeat_call cleanup (S n) h))
                  = cleanupCallbacks h)
    /\ (released h -> cleanup h = mkOut (Ok tt) h []).
Proof.
  intros h o1 o2. subst o1 o2. rewrite !cleanup_run. cbn [res st evs].
  pose proof (cleaned_released h) as R.
  rewrite (released_cleaned _ R), (released_no_events _ R), app_nil_r.
  repeat split.
  - apply invoked_teardowns_cleanup.
  - intros n. rewrite repeat_cleanup_run. apply invoked_teardowns_cleanup.
  - intros Rh. now rewrite (released_cleaned _ Rh), (released_no_events _ Rh).
Qed.

(** A witness of C8: cleanup on the freshly mounted hook. *)
Lemma cleanup_idempotent_witness :
  cleanup initial = mkOut (Ok tt) initial [].
Proof.
  apply (cleanup_idempotent initial). repeat split.
Defined.

(** ** Finalization *)

Lemma emitted_files_cleanup (h : Hook) : emitted_files (cleanup_events h) = [].
Proof.
  unfold cleanup_events, emitted_files. rewrite !flat_map_app.
  assert (E1 : forall l, flat_map (fun e => match e with EvOnStop f => [f] | _ => [] end)
                           (map EvTrackStop l) = []).
  { induction l; simpl; auto. }
  assert (E2 : forall l, flat_map (fun e => match e with EvOnStop f => [f] | _ => [] end)
                           (map EvTeardown l) = []).
  { induction l; simpl; auto. }
  rewrite E2. destruct (streamRef h), (timerIntervalRef h); rewrite ?E1; reflexivity.
Qed.

Lemma first_nonempty_actual (actual requested dflt : string) :
  actual <> "" -> first_nonempty [actual; requested; dflt] = actual.
Proof.
  intros H. simpl. destruct (String.eqb_spec actual ""); [contradiction|reflexivity].
Qed.

Lemma handleStop_run (p : Platform) (now : Z) (h : Hook) :
  recordedChunksRef h <> [] ->
  handleStop p now h =
  mkOut (Ok tt) (cleaned (setStatus Stopped h))
        (EvOnStop (finalized_file p now h)
           :: cleanup_events (setStatus Stopped h)).
Proof.
  intros Hc. unfold handleStop, bind, get.
  destruct (recordedChunksRef h) as [|c cs] eqn:Ech; [contradiction|].
  unfold emit, modify. rewrite cleanup_run.
  f_equal. cbn [app]. f_equal. f_equal.
  unfold finalized_file, spec_resolved_format, spec_extension, actual_format,
    Js.or_str, Js.truthy.
  rewrite Ech. cbn [first_nonempty option_map].
  destruct (mediaRecorderRef h) as [r|]; cbn [option_map negb];
    [destruct (String.eqb (rec_mimeType r) "")|];
    destruct (String.eqb (activeMimeTypeRef h) "");
    destruct (is_audio_only (captureModeRef h));
    cbn [negb andb String.eqb];
    repeat match goal with
           | |- context [if ?b then _ else _] => destruct b
           end; reflexivity.
Qed.

(** C3: a finalization with at least one recorded chunk hands exactly one
    file to onStop; the format of its blob is the encoder's actual
    mimeType when non-empty, else the requested one, else the per-mode
    default, rewritten from video to audio in audio-only mode; the
    extension of its name is derived from that resolved format by known
    substrings; and with a non-empty actual format the requested format
    has no influence on the file. *)
Theorem handleStop_resolves_format :
  forall (p : Platform) (now : Z) (h : Hook),
    recordedChunksRef h <> [] ->
    let audio := is_audio_only (captureModeRef h) in
    let fmt := spec_resolved_format (actual_format h) (activeMimeTypeRef h) audio in
    (exists f,
        emitted_files (evs (handleStop p now h)) = [f]
        /\ blob_type (blob f) = fmt
        /\ name f = "recording-" ++ Js.of_Z now ++ "." ++ spec_extension fmt audio
        /\ type f = (if audio then AudioFile else VideoFile))
    /\ (actual_format h <> "" ->
        forall requested,
          emitted_files (evs (handleStop p now (set_activeMimeTypeRef requested h)))
          = emitted_files (evs (handleStop p now h))).
Proof.
  intros p now h Hc audio fmt. split.
  - exists (finalized_file p now h). rewrite (handleStop_run p now h Hc).
    cbn [evs]. unfold emitted_files. cbn [flat_map].
    fold (emitted_files (cleanup_events (setStatus Stopped h))).
    rewrite emitted_files_cleanup. repeat split.
  - intros Ha requested.
    rewrite (handleStop_run p now h Hc).
    rewrite (handleStop_run p now (set_activeMimeTypeRef requested h)) by exact Hc.
    cbn [evs]. unfold emitted_files. cbn [flat_map].
    fold (emitted_files (cleanup_events (setStatus Stopped h))).
    fold (emitted_files
            (cleanup_events (setStatus Stopped (set_activeMimeTypeRef requested h)))).
    rewrite !emitted_files_cleanup. f_equal.
    unfold finalized_file, spec_resolved_format.
    change (actual_format (set_activeMimeTypeRef requested h)) with (actual_format h).
    cbn [captureModeRef recordedChunksRef startTimeRef activeMimeTypeRef
         set_activeMimeTypeRef].
    now rewrite !(first_nonempty_actual _ _ _ Ha).
Qed.

(** The scenario of C3: WebM requested, MP4 negotiated: the name carries
    the extension of the actual format. *)
Lemma handleStop_resolves_format_witness :
  exists f,
    emitted_files (evs (handleStop granting 3500 substituted_format)) = [f]
    /\ blob_type (blob f) = "video/mp4"
    /\ name f = "recording-3500.mp4".
Proof.
  destruct (handleStop_resolves_format granting 3500 substituted_format)
    as [[f (E & B & N & _)] _]; [discriminate|].
  exists f. split; [exact E|]. split; [exact B|exact N].
Defined.

(** ** Screenshots *)

Lemma endsWith_app (a suf : string) : Js.endsWith (a ++ suf) suf = true.
Proof.
  induction a as [|c a IH].
  - destruct suf; simpl; [reflexivity|]. now rewrite Ascii.eqb_refl, String.eqb_refl.
  - change ((String.eqb (String c (a ++ suf)) suf
             || Js.endsWith (a ++ suf) suf)%bool = true).
    rewrite IH. apply orb_true_r.
Qed.

Lemma append_assoc (a b c : string) : (a ++ b) ++ c = a ++ (b ++ c).
Proof. induction a; simpl; [reflexivity|]. now f_equal. Qed.

Lemma name_extension (pre mid ext : string) :
  Js.endsWith (pre ++ mid ++ "." ++ ext) ("." ++ ext) = true.
Proof. rewrite <- append_assoc. apply endsWith_app. Qed.

Lemma stopped_tracks_map (l : list MediaStreamTrack) :
  stopped_tracks (map EvTrackStop l) = l.
Proof.
  unfold stopped_tracks. induction l; simpl; [reflexivity|]. now f_equal.
Qed.

Lemma emitted_files_track_stops (l : list MediaStreamTrack) :
  emitted_files (map EvTrackStop l) = [].
Proof. unfold emitted_files. induction l; simpl; auto. Qed.

(** C10: a screenshot that completes (the screen stream is granted, the
    canvas gives a 2d context and encodes the frame) stops every track of
    the screen stream and only then hands one file to onStop, and nothing
    else; the file has type image and no duration; its name ends in
    ".jpeg" when the jpeg format is requested and in ".png" otherwise. *)
Theorem takeScreenshot_emits_one_image :
  forall (p : Platform) (settings : CaptureSettings) (now : Z) (h : Hook)
         (stream : MediaStream) (encoded : Blob),
    acquire p (ReqDisplay false) = inr stream ->
    getContext2d p = true ->
    toBlob p (screenshotMimeType settings) (screenshotQuality settings)
      = Some encoded ->
    let o := takeScreenshot p settings now h in
    exists f,
      evs o = (EvRequest (ReqDisplay false)
                 :: map EvTrackStop stream ++ [EvOnStop f])%list
      /\ stopped_tracks (EvRequest (ReqDisplay false) :: map EvTrackStop stream)
         = stream
      /\ emitted_files (evs o) = [f]
      /\ type f = ImageFile
      /\ duration f = None
      /\ blob f = encoded
      /\ (imageFormat settings = Some Jpeg ->
          Js.endsWith (name f) ".jpeg" = true)
      /\ (imageFormat settings <> Some Jpeg ->
          Js.endsWith (name f) ".png" = true)
      /\ res o = Ok tt /\ st o = h.
Proof.
  intros p settings now h stream encoded Ha Hc Hb o. subst o.
  unfold takeScreenshot, bind.
  change (emit (EvRequest (ReqDisplay false)) h)
    with (mkOut (Ok tt) h [EvRequest (ReqDisplay false)]).
  cbn iota. rewrite Ha, Hc. unfold bind, getTracks.
  rewrite forEach_emit. cbn iota. rewrite Hb. unfold emit.
  eexists. split; [cbn [evs app]; reflexivity|].
  split; [apply (stopped_tracks_map stream)|].
  split.
  { cbn [evs]. unfold emitted_files. cbn [app flat_map].
    rewrite flat_map_app. fold (emitted_files (map EvTrackStop stream)).
    now rewrite emitted_files_track_stops. }
  cbn [type duration blob name res st].
  repeat split.
  - intros ->. exact (name_extension "screenshot-" (Js.of_Z now) "jpeg").
  - intros Hn. destruct (imageFormat settings) as [[|]|];
      try (exfalso; apply Hn; reflexivity);
      exact (name_extension "screenshot-" (Js.of_Z now) "png").
Qed.

(** The scenario of C10: format jpeg, quality 0.5. *)
Lemma takeScreenshot_emits_one_image_witness :
  exists f,
    emitted_files
      (evs (takeScreenshot granting (settings_of Screenshot false) 1700 initial))
    = [f]
    /\ type f = ImageFile /\ duration f = None
    /\ Js.endsWith (name f) ".jpeg" = true.
Proof.
  destruct (takeScreenshot_emits_one_image granting
              (settings_of Screenshot false) 1700 initial
              [screenVideoTrack]
              {| blob_size := 1000; blob_type := "image/jpeg" |}
              eq_refl eq_refl eq_refl)
    as (f & _ & _ & E & T & D & _ & J & _).
  exists f. repeat split; [exact E|exact T|exact D|apply J; reflexivity].
Defined.

(** ** What a callback may emit *)

Section Emits.
Variable P : Event -> Prop.

Lemma emits_ret {A} (a : A) : emits_only P (ret a).
Proof. intros h. constructor. Qed.

Lemma emits_throw {A} (e : Thrown) : emits_only P (@throw A e).
Proof. intros h. constructor. Qed.

Lemma emits_get : emits_only P get.
Proof. intros h. constructor. Qed.

Lemma emits_modify (f : Hook -> Hook) : emits_only P (modify f).
Proof. intros h. constructor. Qed.

Lemma emits_emit (e : Event) : P e -> emits_only P (emit e).
Proof. intros He h. repeat constructor. exact He. Qed.

Lemma emits_await {A} (r : Thrown + A) : emits_only P (await r).
Proof. destruct r; intros h; constructor. Qed.

Lemma emits_bind {A B} (m : M A) (k : A -> M B) :
  emits_only P m -> (forall a, emits_only P (k a)) -> emits_only P (bind m k).
Proof.
  intros Hm Hk h. unfold bind. specialize (Hm h).
  destruct (m h) as [[a|e] h1 e1]; cbn in *; [|exact Hm].
  specialize (Hk a h1). destruct (k a h1) as [r h2 e2]; cbn in *.
  apply Forall_app. now split.
Qed.

Lemma emits_try_catch {A} (m : M A) (handler : Thrown -> M A) :
  emits_only P m -> (forall e, emits_only P (handler e)) ->
  emits_only P (try_catch m handler).
Proof.
  intros Hm Hk h. unfold try_catch. specialize (Hm h).
  destruct (m h) as [[a|e] h1 e1]; cbn in *; [exact Hm|].
  specialize (Hk e h1). destruct (handler e h1) as [r h2 e2]; cbn in *.
  apply Forall_app. now split.
Qed.

Lemma emits_forEach {A} (l : list A) (f : A -> M unit) :
  (forall x, emits_only P (f x)) -> emits_only P (forEach l f).
Proof.
  intros Hf. induction l as [|a l IH]; cbn [forEach].
  - apply emits_ret.
  - apply emits_bind; auto.
Qed.
End Emits.

(** One step of the analysis of what a callback emits: split a sequence,
    a conditional or a match, or close a primitive. *)
Ltac emits_step :=
  first
    [ progress cbv beta zeta
    | apply emits_ret | apply emits_throw | apply emits_get
    | apply emits_modify | apply emits_await
    | apply emits_emit; exact I
    | apply emits_emit; reflexivity
    | apply emits_bind; [|intros ?]
    | apply emits_try_catch; [|intros ?]
    | apply emits_forEach; intros ?
    | match goal with
      | |- emits_only _ (if ?b then _ else _) => destruct b
      | |- emits_only _ (match ?x with _ => _ end) => destruct x
      end ].

Ltac emits := repeat emits_step.

Lemma cleanup_emits (P : Event -> Prop) :
  (forall t, P (EvTrackStop t)) -> (forall i, P (EvClearInterval i)) ->
  (forall cb, P (EvTeardown cb)) -> emits_only P cleanup.
Proof.
  intros Ht Hi Hc h. rewrite cleanup_run. cbn [evs]. unfold cleanup_events.
  rewrite !Forall_app. repeat split.
  - destruct (streamRef h); [|constructor].
    apply Forall_forall. intros x Hx. apply in_map_iff in Hx.
    destruct Hx as (t & <- & _). apply Ht.
  - destruct (timerIntervalRef h); repeat constructor. apply Hi.
  - apply Forall_forall. intros x Hx. apply in_map_iff in Hx.
    destruct Hx as (t & <- & _). apply Hc.
Qed.

Ltac unfold_start :=
  unfold startBody, acquireScreenAndCam, acquireStandard, mix_session_audio,
    setupVideoComposition, mixAudioTracks, register_onended, recorder_start,
    startTimer, push_cleanupCallback, when.

Lemma startBody_no_onStop (p : Platform) (settings : CaptureSettings) (now : Z) :
  emits_only not_onStop (startBody p settings now).
Proof. unfold_start. emits. Qed.

Lemma cleanup_no_onStop : emits_only not_onStop cleanup.
Proof. apply cleanup_emits; intros; exact I. Qed.

Lemma emitted_files_none (es : list Event) :
  Forall not_onStop es -> emitted_files es = [].
Proof.
  induction 1 as [|e es He _ IH]; [reflexivity|].
  unfold emitted_files in *. cbn [flat_map]. rewrite IH.
  destruct e; try reflexivity. destruct He.
Qed.

Lemma microphone_free_requests (a : bool) (es : list Event) :
  Forall (microphone_free a) es ->
  filter is_microphone_request (requests es) = []
  /\ forall b, In (ReqDisplay b) (requests es) -> b = a.
Proof.
  induction 1 as [|e es He _ IH]; [split; [reflexivity|intros b []]|].
  destruct IH as [IH1 IH2]. unfold requests in *. cbn [flat_map].
  destruct e as [[b|d|b]| | | | | | | | | |]; cbn in *; auto.
  - split; [exact IH1|]. intros b' [[= <-]|Hb]; auto.
  - split; [exact IH1|]. intros b' [[=]|Hb]; auto.
  - destruct He.
Qed.

(** ** Acquisition *)

(** C9: with includeMic off and a mode other than audio-only,
    startRecording makes no microphone request, whatever
    includeSystemAudio is; system audio travels only as the audio flag of
    the display-capture request. *)
Theorem startRecording_never_requests_microphone :
  forall (p : Platform) (settings : CaptureSettings) (now : Z) (h : Hook),
    includeMic settings = false ->
    mode settings <> AudioOnly ->
    let es := evs (startRecording p settings now h) in
    filter is_microphone_request (requests es) = []
    /\ forall a, In (ReqDisplay a) (requests es) ->
                 a = includeSystemAudio settings.
Proof.
  intros p settings now h Hmic Hmode es. subst es.
  apply microphone_free_requests. revert h.
  change (emits_only (microphone_free (includeSystemAudio settings))
            (startRecording p settings now)).
  unfold startRecording, startPrelude, startCatch. unfold_start.
  destruct settings as [m c mic sys img q cam].
  cbn [mode includeMic includeSystemAudio cameraDeviceId] in *. subst mic.
  assert (Hc : emits_only (microphone_free sys) cleanup)
    by (apply cleanup_emits; intros; exact I).
  destruct m; try (exfalso; apply Hmode; reflexivity);
    cbn [mode_eqb orb];
    repeat first [ apply Hc | emits_step ].
Qed.

(** A witness of C9: screen and camera with system audio, microphone off. *)
Lemma startRecording_never_requests_microphone_witness :
  filter is_microphone_request
    (requests (evs (startRecording granting (settings_of ScreenAndCam false)
                      0 initial))) = [].
Proof.
  apply (startRecording_never_requests_microphone granting
           (settings_of ScreenAndCam false) 0 initial).
  - reflexivity.
  - discriminate.
Defined.

(** ** What a callback leaves unchanged *)

Section Preserves.
Context {X : Type} (proj : Hook -> X).

Lemma preserves_ret {A} (a : A) : preserves proj (ret a).
Proof. intros h. reflexivity. Qed.

Lemma preserves_throw {A} (e : Thrown) : preserves proj (@throw A e).
Proof. intros h. reflexivity. Qed.

Lemma preserves_get : preserves proj get.
Proof. intros h. reflexivity. Qed.

Lemma preserves_emit (e : Event) : preserves proj (emit e).
Proof. intros h. reflexivity. Qed.

Lemma preserves_await {A} (r : Thrown + A) : preserves proj (await r).
Proof. destruct r; intros h; reflexivity. Qed.

Lemma preserves_modify (f : Hook -> Hook) :
  (forall h, proj (f h) = proj h) -> preserves proj (modify f).
Proof. intros Hf h. apply Hf. Qed.

Lemma preserves_bind {A B} (m : M A) (k : A -> M B) :
  preserves proj m -> (forall a, preserves proj (k a)) ->
  preserves proj (bind m k).
Proof.
  intros Hm Hk h. unfold bind. specialize (Hm h).
  destruct (m h) as [[a|e] h1 e1]; cbn in *; [|exact Hm].
  specialize (Hk a h1). destruct (k a h1) as [r h2 e2]; cbn in *.
  congruence.
Qed.

Lemma preserves_try_catch {A} (m : M A) (handler : Thrown -> M A) :
  preserves proj m -> (forall e, preserves proj (handler e)) ->
  preserves proj (try_catch m handler).
Proof.
  intros Hm Hk h. unfold try_catch. specialize (Hm h).
  destruct (m h) as [[a|e] h1 e1]; cbn in *; [exact Hm|].
  specialize (Hk e h1). destruct (handler e h1) as [r h2 e2]; cbn in *.
  congruence.
Qed.

Lemma preserves_forEach {A} (l : list A) (f : A -> M unit) :
  (forall x, preserves proj (f x)) -> preserves proj (forEach l f).
Proof.
  intros Hf. induction l as [|a l IH]; cbn [forEach].
  - apply preserves_ret.
  - apply preserves_bind; auto.
Qed.
End Preserves.

Ltac preserves_step :=
  first
    [ progress cbv beta zeta
    | apply preserves_ret | apply preserves_throw | apply preserves_get
    | apply preserves_emit | apply preserves_await
    | apply preserves_modify; intros ?; reflexivity
    | apply preserves_bind; [|intros ?]
    | apply preserves_try_catch; [|intros ?]
    | apply preserves_forEach; intros ?
    | match goal with
      | |- preserves _ (if ?b then _ else _) => destruct b
      | |- preserves _ (match ?x with _ => _ end) => destruct x
      end ].

Lemma startBody_preserves_error (p : Platform) (settings : CaptureSettings)
    (now : Z) :
  preserves error (startBody p settings now).
Proof. unfold_start. repeat preserves_step. Qed.

(** ** Failed starts *)

Lemma startPrelude_run (settings : CaptureSettings) (h : Hook) :
  startPrelude settings h =
  mkOut (Ok tt) (acquiring_state settings h) (cleanup_events h).
Proof.
  unfold startPrelude, bind. rewrite cleanup_run. unfold modify.
  now rewrite !app_nil_r.
Qed.

Lemma audio_only_microphone_refused (p : Platform) (settings : CaptureSettings)
    (now : Z) (e : Thrown) (h : Hook) :
  mode settings = AudioOnly ->
  acquire p (ReqMicrophone false) = inl e ->
  res (startBody p settings now h) = Throw e.
Proof.
  intros Hm Ha. unfold startBody, acquireStandard. rewrite Hm.
  cbn [mode_eqb orb]. rewrite orb_true_r, Ha.
  reflexivity.
Qed.

Lemma startCatch_run (e : Thrown) (h : Hook) :
  startCatch e h =
  if isPermissionError e then
    mkOut (Ok tt) (setStatus Idle (cleaned h))
      (cleanup_events h ++
       [EvConsole LogLevel "Recording cancelled by user or permission denied."])
  else
    mkOut (Ok tt)
      (setStatus Error
         (setError (Some ("Failed to start recording: " ++ displayMessageOf e))
            (cleaned h)))
      (cleanup_events h ++ [EvConsole ErrorLevel "Failed to start recording:"]).
Proof.
  unfold startCatch, bind. rewrite cleanup_run.
  destruct (isPermissionError e); reflexivity.
Qed.

Lemma emitted_files_app (a b : list Event) :
  emitted_files (a ++ b) = (emitted_files a ++ emitted_files b)%list.
Proof. apply flat_map_app. Qed.

(** C4: when the try block of startRecording is left by an error [e]
    (acquisition or encoder start), cleanup runs and no file is handed to
    onStop; if [e] is recognised as a denial or cancellation the status
    returns to idle with no error message, otherwise the status becomes
    error and the message is surfaced.  A refused microphone in audio-only
    mode is such an error. *)
Theorem startRecording_error_routing :
  forall (p : Platform) (settings : CaptureSettings) (now : Z) (h : Hook)
         (e : Thrown),
    status h <> Recording -> status h <> Acquiring ->
    let failed := startBody p settings now (acquiring_state settings h) in
    res failed = Throw e
    \/ (mode settings = AudioOnly /\ acquire p (ReqMicrophone false) = inl e) ->
    let o := startRecording p settings now h in
    res o = Ok tt
    /\ emitted_files (evs o) = []
    /\ released (st o)
    /\ (exists tail,
          evs o = (cleanup_events h ++ evs failed
                   ++ cleanup_events (st failed) ++ tail)%list)
    /\ (isPermissionError e = true ->
        status (st o) = Idle /\ error (st o) = None)
    /\ (isPermissionError e = false ->
        status (st o) = Error
        /\ error (st o)
           = Some ("Failed to start recording: " ++ displayMessageOf e)).
Proof.
  intros p settings now h e Hr Ha failed Hf o.
  assert (Hres : res failed = Throw e).
  { destruct Hf as [Hf|[Hm Hq]]; [exact Hf|].
    apply audio_only_microphone_refused; assumption. }
  clear Hf.
  pose proof (startBody_no_onStop p settings now (acquiring_state settings h)) as Hno.
  pose proof (startBody_preserves_error p settings now
                (acquiring_state settings h)) as Herr.
  fold failed in Hno, Herr.
  assert (Eo : o = match startCatch e (st failed) with
                   | mkOut r h2 e2 =>
                       mkOut r h2 (cleanup_events h ++ evs failed ++ e2)%list
                   end).
  { subst o. unfold startRecording, bind, get.
    replace (status_eqb (status h) Recording || status_eqb (status h) Acquiring)%bool
      with false by (destruct (status h); try reflexivity; contradiction).
    rewrite startPrelude_run. unfold try_catch. fold failed.
    destruct failed as [[a|e'] h1 e1]; cbn in Hres; [discriminate|].
    injection Hres as ->. cbn [st evs].
    destruct (startCatch e h1) as [r h2 e2]. reflexivity. }
  rewrite Eo, startCatch_run. clear Eo.
  assert (Hfiles : forall tail, emitted_files tail = [] ->
            emitted_files (cleanup_events h ++ evs failed
                           ++ cleanup_events (st failed) ++ tail) = []).
  { intros tail Ht. rewrite !emitted_files_app, !emitted_files_cleanup, Ht.
    now rewrite (emitted_files_none _ Hno). }
  destruct (isPermissionError e); cbn [res st evs].
  - split; [reflexivity|]. split; [now apply Hfiles|].
    split; [repeat split|]. split; [eexists; reflexivity|].
    split; [|discriminate]. intros _. split; [reflexivity|]. exact Herr.
  - split; [reflexivity|]. split; [now apply Hfiles|].
    split; [repeat split|]. split; [eexists; reflexivity|].
    split; [discriminate|]. intros _. split; reflexivity.
Qed.

(** The scenario of C4: audio-only with the microphone refused by a
    NotAllowedError (a cancellation) and by a NotFoundError (a failure). *)
Lemma startRecording_error_routing_witness :
  (status (st (audio_only_refused cancelled)) = Idle
   /\ error (st (audio_only_refused cancelled)) = None
   /\ emitted_files (evs (audio_only_refused cancelled)) = [])
  /\ (status (st (audio_only_refused missing)) = Error
      /\ error (st (audio_only_refused missing))
         = Some "Failed to start recording: Requested device not found"
      /\ emitted_files (evs (audio_only_refused missing)) = []).
Proof.
  split.
  - destruct (startRecording_error_routing (refusing_microphone cancelled)
                (settings_of AudioOnly true) 0 initial cancelled)
      as (_ & F & _ & _ & I & _);
      [discriminate|discriminate|right; split; reflexivity|].
    destruct (I eq_refl) as [S E]. repeat split; assumption.
  - destruct (startRecording_error_routing (refusing_microphone missing)
                (settings_of AudioOnly true) 0 initial missing)
      as (_ & F & _ & _ & _ & I);
      [discriminate|discriminate|right; split; reflexivity|].
    destruct (I eq_refl) as [S E]. repeat split; assumption.
Defined.

(** ** The elapsed-time clock *)

Lemma paused_at_ten_seconds_state :
  status paused_at_ten_seconds = Paused
  /\ timer paused_at_ten_seconds = 10
  /\ startTimeRef paused_at_ten_seconds = 0
  /\ recordedChunksRef paused_at_ten_seconds = [chunk].
Proof. vm_compute. repeat split. Qed.

Lemma resumeRecording_run (p : Platform) (now : Z) (h : Hook) (r : MediaRecorder) :
  status h = Paused -> mediaRecorderRef h = Some r -> recorder_active r = true ->
  resumeRecording p now h =
  mkOut (Ok tt)
    (setStatus Recording
       (set_timerIntervalRef (Some (setInterval p now))
          (set_startTimeRef now
             (set_startTimeRef (now - timer h * 1000)
                (set_mediaRecorderRef
                   (Some {| rec_stream := rec_stream r;
                            rec_mimeType := rec_mimeType r;
                            rec_state := RecorderRecording |}) h)))))
    [EvRecorder OpResume; EvSetInterval (setInterval p now)].
Proof.
  intros Hs Hr Ha.
  unfold resumeRecording, recorder_pause_resume, recorder_set_state, startTimer,
    bind, get, emit, modify.
  rewrite Hr, Hs. cbn [status_eqb]. rewrite Hr, Ha. cbn beta iota.
  rewrite Hr. reflexivity.
Qed.

(** C6, as the code runs: resumeRecording sets the time origin back by
    the accumulated time and then calls startTimer, which overwrites the
    origin with the present instant; the display keeps its value until
    the first tick, which shows the time since the resume, not the
    accumulated time. *)
Theorem resumeRecording_restarts_clock :
  forall (p : Platform) (now elapsed : Z) (h : Hook) (r : MediaRecorder),
    status h = Paused -> mediaRecorderRef h = Some r ->
    recorder_active r = true ->
    let resumed := st (resumeRecording p now h) in
    status resumed = Recording
    /\ timer resumed = timer h
    /\ startTimeRef resumed = now
    /\ timer (st (timerTick (now + elapsed) resumed)) = elapsed / 1000.
Proof.
  intros p now elapsed h r Hs Hr Ha resumed. subst resumed.
  rewrite (resumeRecording_run p now h r Hs Hr Ha). cbn [st].
  repeat split.
  unfold timerTick, bind, get, modify. cbn.
  f_equal. lia.
Qed.

(** Ten seconds recorded, a pause, a resume thirty seconds later: the
    first tick after the resume shows 1. *)
Lemma resumeRecording_restarts_clock_witness :
  timer paused_at_ten_seconds = 10
  /\ timer (st (timerTick (40000 + 1000)
                  (st (resumeRecording granting 40000 paused_at_ten_seconds))))
     = 1.
Proof.
  split; [reflexivity|].
  refine (proj2 (proj2 (proj2
    (resumeRecording_restarts_clock granting 40000 1000 paused_at_ten_seconds
       {| rec_stream := [screenVideoTrack; screenAudioTrack];
          rec_mimeType := "video/webm; codecs=vp9";
          rec_state := RecorderPaused |} _ _ _)))); reflexivity.
Defined.

(** C7, as the code runs: the duration of the file is the wall-clock time
    since the origin startTimer last wrote, which after a resume is the
    instant of the resume: the time recorded before the pause is not
    counted. *)
Theorem handleStop_duration_since_resume :
  forall (p : Platform) (now stop : Z) (h : Hook) (r : MediaRecorder),
    status h = Paused -> mediaRecorderRef h = Some r ->
    recorder_active r = true ->
    recordedChunksRef h <> [] ->
    let resumed := st (resumeRecording p now h) in
    exists f,
      emitted_files (evs (handleStop p stop resumed)) = [f]
      /\ duration f = Some (Qmake (stop - now) 1000).
Proof.
  intros p now stop h r Hs Hr Ha Hc resumed. subst resumed.
  rewrite (resumeRecording_run p now h r Hs Hr Ha). cbn [st].
  rewrite handleStop_run by exact Hc.
  eexists. split.
  - cbn [evs]. unfold emitted_files. cbn [flat_map].
    match goal with
    | |- (_ ++ ?l)%list = _ => change l with (emitted_files
        (cleanup_events (setStatus Stopped
           (setStatus Recording
              (set_timerIntervalRef (Some (setInterval p now))
                 (set_startTimeRef now
                    (set_startTimeRef (now - timer h * 1000)
                       (set_mediaRecorderRef
                          (Some {| rec_stream := rec_stream r;
                                   rec_mimeType := rec_mimeType r;
                                   rec_state := RecorderRecording |}) h))))))))
    end.
    rewrite emitted_files_cleanup. reflexivity.
  - reflexivity.
Qed.

(** Ten seconds recorded, thirty paused, two more recorded: the file
    claims two seconds. *)
Lemma handleStop_duration_since_resume_witness :
  exists f,
    emitted_files
      (evs (handleStop granting 42000
              (st (resumeRecording granting 40000 paused_at_ten_seconds))))
    = [f]
    /\ duration f = Some (Qmake 2000 1000).
Proof.
  refine (handleStop_duration_since_resume granting 40000 42000
            paused_at_ten_seconds
            {| rec_stream := [screenVideoTrack; screenAudioTrack];
               rec_mimeType := "video/webm; codecs=vp9";
               rec_state := RecorderPaused |} _ _ _ _);
    [reflexivity|reflexivity|reflexivity|discriminate].
Defined.

(** A recording stopped while paused: the pause itself is counted. *)
Example stop_while_paused_counts_the_pause :
  map duration
    (emitted_files
       (evs (sequence [stopRecording; handleStop granting 40000]
               paused_at_ten_seconds)))
  = [Some (Qmake 40000 1000)].
Proof. vm_compute. reflexivity. Qed.

(** ** Release of the session's resources *)

(** C2, as the code runs: in a screen-and-camera session the stream kept
    in streamRef holds the canvas track and the mixed audio track only,
    so the finalization stops those two and invokes both teardown
    callbacks once, while the screen, camera and microphone tracks the
    session acquired are never stopped. *)
Theorem screen_and_cam_session_leaves_device_tracks :
  let o := screen_and_cam_session initial in
  res o = Ok tt
  /\ status (st o) = Stopped
  /\ requests (evs o)
     = [ReqDisplay true; ReqCamera None; ReqMicrophone true]
  /\ stopped_tracks (evs o) = [composedTrack; mixTrack]
  /\ filter is_device_track (stopped_tracks (evs o)) = []
  /\ invoked_teardowns (evs o)
     = [VidCleanup [screenVideoTrack; screenAudioTrack] [cameraTrack];
        AudioCleanup [[screenVideoTrack; screenAudioTrack]; [micTrack]]]
  /\ List.length (emitted_files (evs o)) = 1%nat.
Proof. vm_compute. repeat split. Qed.

(** The sibling path: the same session in screen-video mode stops every
    device track it acquired. *)
Example screen_video_session_stops_device_tracks :
  let o := screen_video_session initial in
  status (st o) = Stopped
  /\ requests (evs o) = [ReqMicrophone false; ReqDisplay true]
  /\ stopped_tracks (evs o) = [screenVideoTrack; screenAudioTrack; micTrack].
Proof. vm_compute. repeat split. Qed.

(** * Further properties of the controller *)

(** ** Finalization without data *)

(** X1: the encoder's stop event with no recorded chunk hands nothing to
    onStop: the status becomes stopped and the session's resources are
    released as by cleanup. *)
Theorem handleStop_without_chunks :
  forall (p : Platform) (now : Z) (h : Hook),
    recordedChunksRef h = [] ->
    let o := handleStop p now h in
    res o = Ok tt
    /\ st o = cleaned (setStatus Stopped h)
    /\ emitted_files (evs o) = []
    /\ stopped_tracks (evs o) = match streamRef h with Some s => s | None => [] end
    /\ invoked_teardowns (evs o) = cleanupCallbacks h.
Proof.
  intros p now h Hc o. subst o.
  assert (E : handleStop p now h =
              mkOut (Ok tt) (cleaned (setStatus Stopped h))
                (((if negb (status_eqb (status h) Error)
                   then [EvConsole WarnLevel "No data recorded."] else [])
                  ++ cleanup_events h))%list).
  { unfold handleStop, bind, get, when. rewrite Hc.
    destruct (negb (status_eqb (status h) Error)); unfold emit, modify, ret;
      rewrite cleanup_run; reflexivity. }
  rewrite E. cbn [res st evs].
  split; [reflexivity|]. split; [reflexivity|].
  split.
  { rewrite emitted_files_app, emitted_files_cleanup.
    destruct (negb (status_eqb (status h) Error)); reflexivity. }
  split.
  { unfold stopped_tracks. rewrite flat_map_app.
    replace (flat_map _ (if negb (status_eqb (status h) Error)
                         then [EvConsole WarnLevel "No data recorded."] else []))
      with (@nil MediaStreamTrack)
      by (destruct (negb (status_eqb (status h) Error)); reflexivity).
    cbn [app]. unfold cleanup_events. rewrite !flat_map_app.
    fold (stopped_tracks (map EvTeardown (cleanupCallbacks h))).
    assert (T : forall l, stopped_tracks (map EvTeardown l) = [])
      by (induction l; simpl; auto).
    rewrite T. destruct (streamRef h) as [s|], (timerIntervalRef h);
      cbn [flat_map app]; rewrite ?app_nil_r;
      try apply (stopped_tracks_map s); reflexivity. }
  rewrite invoked_teardowns_app, invoked_teardowns_cleanup.
  destruct (negb (status_eqb (status h) Error)); reflexivity.
Qed.

(** A stop event right after a start that recorded nothing. *)
Lemma handleStop_without_chunks_witness :
  emitted_files (evs (handleStop granting 900 initial)) = []
  /\ status (st (handleStop granting 900 initial)) = Stopped.
Proof.
  destruct (handleStop_without_chunks granting 900 initial eq_refl)
    as (_ & S & F & _).
  split; [exact F|]. rewrite S. reflexivity.
Defined.

(** ** Recorded chunks *)

Lemma sequence_data_run (datas : list Blob) (h : Hook) :
  sequence (map handleDataAvailable datas) h =
  mkOut (Ok tt)
    (set_recordedChunksRef (recordedChunksRef h ++ with_data datas) h) [].
Proof.
  revert h. induction datas as [|d datas IH]; intros h.
  - cbn. destruct h; cbn. now rewrite app_nil_r.
  - cbn [map sequence]. unfold bind, handleDataAvailable, when.
    unfold with_data. cbn [filter]. fold (with_data datas).
    destruct (0 <? blob_size d)%N.
    + unfold modify. rewrite IH. destruct h; cbn.
      now rewrite <- app_assoc.
    + unfold ret. rewrite IH. reflexivity.
Qed.

(** X2: dataavailable events append their chunks to the chunk list in
    arrival order, dropping the empty ones, and touch nothing else. *)
Theorem handleDataAvailable_collects_chunks :
  forall (datas : list Blob) (h : Hook),
    let o := sequence (map handleDataAvailable datas) h in
    res o = Ok tt /\ evs o = []
    /\ recordedChunksRef (st o) = (recordedChunksRef h ++ with_data datas)%list
    /\ Forall (fun d => blob_size d <> 0%N) (with_data datas)
    /\ st o = set_recordedChunksRef (recordedChunksRef (st o)) h.
Proof.
  intros datas h o. subst o. rewrite sequence_data_run. cbn [res st evs].
  repeat split.
  apply Forall_forall. intros d Hd. unfold with_data in Hd.
  apply filter_In in Hd. destruct Hd as [_ Hd].
  apply N.ltb_lt in Hd. lia.
Qed.

Lemma total_size_with_data (datas : list Blob) :
  total_size (with_data datas) = total_size datas.
Proof.
  unfold total_size, with_data.
  induction datas as [|d datas IH]; [reflexivity|].
  cbn [filter]. destruct (0 <? blob_size d)%N eqn:E; cbn [map fold_right].
  - now rewrite IH.
  - rewrite IH. apply N.ltb_ge in E. lia.
Qed.

(** X3: when a session that starts with an empty chunk list receives its
    dataavailable events and then the stop event, the blob of the file
    handed to onStop holds every byte the encoder delivered. *)
Theorem finalized_blob_holds_all_data :
  forall (p : Platform) (now : Z) (datas : list Blob) (h : Hook),
    recordedChunksRef h = [] ->
    with_data datas <> [] ->
    let o := sequence (map handleDataAvailable datas ++ [handleStop p now]) h in
    exists f,
      emitted_files (evs o) = [f]
      /\ blob_size (blob f) = total_size datas
      /\ status (st o) = Stopped.
Proof.
  intros p now datas h Hc Hd o.
  assert (E : o = handleStop p now
                    (set_recordedChunksRef (with_data datas) h)).
  { subst o.
    assert (S : forall (ms : list (M unit)) (m : M unit) (x : Hook) (y : Hook),
               sequence ms x = mkOut (Ok tt) y [] ->
               sequence (ms ++ [m]) x = m y).
    { induction ms as [|m0 ms IH]; intros m x y Hx.
      - cbn in Hx. injection Hx as <-. cbn. unfold bind, ret.
        destruct (m x) as [[[]|e] h1 e1]; now rewrite ?app_nil_r.
      - cbn [app sequence] in *. unfold bind in *.
        destruct (m0 x) as [[[]|e] h1 e1]; [|discriminate].
        destruct (sequence ms h1) as [r2 h2 e2] eqn:E2.
        injection Hx as -> -> Happ.
        apply app_eq_nil in Happ. destruct Happ as [-> ->].
        rewrite (IH m h1 y E2). destruct (m y) as [r3 h3 e3]. reflexivity. }
    rewrite (S _ _ _ _ (sequence_data_run datas h)). now rewrite Hc. }
  rewrite E.
  rewrite handleStop_run by (destruct h; exact Hd).
  exists (finalized_file p now (set_recordedChunksRef (with_data datas) h)).
  cbn [evs st]. split.
  - unfold emitted_files at 1. cbn [flat_map].
    match goal with
    | |- (_ ++ ?l)%list = _ =>
        change l with (emitted_files (cleanup_events
          (setStatus Stopped (set_recordedChunksRef (with_data datas) h))))
    end.
    now rewrite emitted_files_cleanup.
  - split; [|reflexivity].
    unfold finalized_file, new_Blob. cbn [blob blob_size].
    destruct h; cbn [recordedChunksRef set_recordedChunksRef].
    apply total_size_with_data.
Qed.

(** Three chunks, the second one empty. *)
Lemma finalized_blob_holds_all_data_witness :
  exists f,
    emitted_files
      (evs (sequence
              (map handleDataAvailable
                 [chunk; {| blob_size := 0; blob_type := "" |}; chunk]
               ++ [handleStop granting 3000]) initial)) = [f]
    /\ blob_size (blob f) = 8192%N.
Proof.
  destruct (finalized_blob_holds_all_data granting 3000
              [chunk; {| blob_size := 0; blob_type := "" |}; chunk] initial
              eq_refl)
    as (f & E & B & _); [discriminate|].
  exists f. split; [exact E|exact B].
Defined.

(** ** Outcomes of a start *)

Lemma startBody_preserves_timer (p : Platform) (settings : CaptureSettings)
    (now : Z) :
  preserves timer (startBody p settings now).
Proof. unfold_start. repeat preserves_step. Qed.

Lemma startBody_preserves_chunks (p : Platform) (settings : CaptureSettings)
    (now : Z) :
  preserves recordedChunksRef (startBody p settings now).
Proof. unfold_start. repeat preserves_step. Qed.

(** What a try block that runs to its end has set up. *)
Lemma startBody_ok (p : Platform) (settings : CaptureSettings) (now : Z)
    (h : Hook) :
  res (startBody p settings now h) = Ok tt ->
  let h' := st (startBody p settings now h) in
  status h' = Recording
  /\ timerIntervalRef h' = Some (setInterval p now)
  /\ startTimeRef h' = now
  /\ exists finalStream negotiated,
       mediaRecorderRef h'
       = Some {| rec_stream := finalStream;
                 rec_mimeType := negotiated;
                 rec_state := RecorderRecording |}
       /\ streamRef h' = Some finalStream.
Proof.
  intros Hres h'. subst h'. revert Hres.
  unfold startBody.
  set (acq := if mode_eqb (mode settings) ScreenAndCam
              then acquireScreenAndCam p settings
              else acquireStandard p settings).
  unfold recorder_start, startTimer, bind, modify, get, emit, await.
  destruct (acq h) as [[fs|e] h1 e1]; [|discriminate].
  cbn [res st evs].
  destruct (newMediaRecorder p fs _) as [e|neg]; [discriminate|].
  cbn [ret res st evs].
  destruct (recorderStart p) as [e|]; [discriminate|].
  cbn. intros _. repeat split. eauto.
Qed.

(** A start whose try block is left by an error, run to its end. *)
Lemma startRecording_failed_run (p : Platform) (settings : CaptureSettings)
    (now : Z) (h : Hook) (e : Thrown) :
  status h <> Recording -> status h <> Acquiring ->
  let body := startBody p settings now (acquiring_state settings h) in
  res body = Throw e ->
  startRecording p settings now h =
  match startCatch e (st body) with
  | mkOut r h2 e2 => mkOut r h2 (cleanup_events h ++ evs body ++ e2)%list
  end.
Proof.
  intros Hr Ha body Hres.
  unfold startRecording, bind, get.
  replace (status_eqb (status h) Recording
           || status_eqb (status h) Acquiring)%bool
    with false by (destruct (status h); try reflexivity; contradiction).
  rewrite startPrelude_run. unfold try_catch. fold body.
  destruct body as [[a|e'] h1 e1]; cbn in Hres; [discriminate|].
  injection Hres as ->. cbn [st evs].
  destruct (startCatch e h1) as [r h2 e2]. reflexivity.
Qed.

(** X4: a start command from a status other than acquiring or recording
    never throws and never leaves the status at acquiring: it ends in
    recording, with an active encoder on the stream of streamRef, a live
    clock whose origin is the present instant, a zero timer, no chunks
    and no error message; or it ends in idle or error with every
    resource released. *)
Theorem startRecording_outcomes :
  forall (p : Platform) (settings : CaptureSettings) (now : Z) (h : Hook),
    status h <> Recording -> status h <> Acquiring ->
    let o := startRecording p settings now h in
    res o = Ok tt
    /\ ((status (st o) = Recording
         /\ error (st o) = None /\ timer (st o) = 0
         /\ recordedChunksRef (st o) = []
         /\ timerIntervalRef (st o) = Some (setInterval p now)
         /\ startTimeRef (st o) = now
         /\ (exists finalStream negotiated,
               mediaRecorderRef (st o)
               = Some {| rec_stream := finalStream;
                         rec_mimeType := negotiated;
                         rec_state := RecorderRecording |}
               /\ streamRef (st o) = Some finalStream)
         /\ forall t, timer (st (timerTick t (st o))) = (t - now) / 1000)
        \/ ((status (st o) = Idle \/ status (st o) = Error)
            /\ released (st o))).
Proof.
  intros p settings now h Hr Ha o.
  set (body := startBody p settings now (acquiring_state settings h)).
  destruct (res body) as [[]|e] eqn:Hres.
  - (* the try block ran to its end *)
    assert (Eo : o = mkOut (Ok tt) (st body) (cleanup_events h ++ evs body)%list).
    { subst o. unfold startRecording, bind, get.
      replace (status_eqb (status h) Recording
               || status_eqb (status h) Acquiring)%bool
        with false by (destruct (status h); try reflexivity; contradiction).
      rewrite startPrelude_run. unfold try_catch. fold body.
      destruct body as [[[]|e'] h1 e1]; cbn in Hres; [reflexivity|discriminate]. }
    rewrite Eo. cbn [res st]. split; [reflexivity|]. left.
    destruct (startBody_ok p settings now _ Hres)
      as (Hs & Hi & Ht & fs & neg & Hm & Hst).
    fold body in Hs, Hi, Ht, Hm, Hst.
    split; [exact Hs|].
    split; [exact (startBody_preserves_error p settings now _)|].
    split; [exact (startBody_preserves_timer p settings now _)|].
    split; [exact (startBody_preserves_chunks p settings now _)|].
    split; [exact Hi|]. split; [exact Ht|].
    split; [exists fs, neg; split; assumption|].
    intros t. unfold timerTick, bind, get, modify. rewrite Hi. cbn.
    now rewrite Ht.
  - (* the try block was left by an error *)
    subst o. rewrite (startRecording_failed_run p settings now h e Hr Ha Hres).
    rewrite startCatch_run.
    destruct (isPermissionError e); cbn [res st evs].
    + split; [reflexivity|]. right. split; [left; reflexivity|repeat split].
    + split; [reflexivity|]. right. split; [right; reflexivity|repeat split].
Qed.

(** A witness of X4: a granted screen-video start, and a refused
    audio-only one. *)
Lemma startRecording_outcomes_witness :
  status (st (startRecording granting (settings_of ScreenVideo true) 0 initial))
  = Recording
  /\ status (st (audio_only_refused missing)) = Error.
Proof.
  split.
  - destruct (startRecording_outcomes granting (settings_of ScreenVideo true)
                0 initial) as (_ & [(S & _)|([S|S] & _)]);
      [discriminate|discriminate|exact S|discriminate S|discriminate S].
  - destruct (startRecording_outcomes (refusing_microphone missing)
                (settings_of AudioOnly true) 0 initial)
      as (_ & [(S & _)|([S|S] & _)]);
      [discriminate|discriminate|discriminate S|discriminate S|exact S].
Defined.

(** ** An invariant of the hook *)

Lemma handleStop_state (p : Platform) (now : Z) (h : Hook) :
  st (handleStop p now h) = cleaned (setStatus Stopped h).
Proof.
  destruct (recordedChunksRef h) as [|c cs] eqn:Hc.
  - unfold handleStop, bind, get, when. rewrite Hc.
    destruct (negb (status_eqb (status h) Error)); unfold emit, modify, ret;
      rewrite cleanup_run; reflexivity.
  - rewrite handleStop_run by (rewrite Hc; discriminate). reflexivity.
Qed.

Lemma screenshotCatch_run (stream : option MediaStream) (err : Thrown)
    (h : Hook) :
  screenshotCatch stream err h =
  mkOut (Ok tt)
    (if isScreenshotCancellation err then h
     else setError (Some ("Screenshot failed: " ++ displayMessageOf err)) h)
    (map EvTrackStop (match stream with Some s => s | None => [] end)).
Proof.
  unfold screenshotCatch, isScreenshotCancellation, bind, getTracks.
  destruct stream as [s|]; rewrite ?forEach_emit; cbn [ret];
    destruct (_ || _ || _)%bool; cbn; rewrite ?app_nil_r; reflexivity.
Qed.

Lemma takeScreenshot_state (p : Platform) (settings : CaptureSettings)
    (now : Z) (h : Hook) :
  res (takeScreenshot p settings now h) = Ok tt
  /\ (st (takeScreenshot p settings now h) = h
      \/ exists msg, st (takeScreenshot p settings now h) = setError (Some msg) h).
Proof.
  unfold takeScreenshot, bind, getTracks.
  change (emit (EvRequest (ReqDisplay false)) h)
    with (mkOut (Ok tt) h [EvRequest (ReqDisplay false)]).
  cbn iota.
  destruct (acquire p (ReqDisplay false)) as [err|stream].
  - rewrite screenshotCatch_run.
    destruct (isScreenshotCancellation err); cbn [res st]; eauto.
  - destruct (getContext2d p).
    + rewrite forEach_emit.
      destruct (toBlob p _ _) as [b|].
      * cbn. eauto.
      * rewrite screenshotCatch_run.
        destruct (isScreenshotCancellation _); cbn [res st]; eauto.
    + rewrite screenshotCatch_run.
      destruct (isScreenshotCancellation _); cbn [res st]; eauto.
Qed.

Lemma startRecording_state (p : Platform) (settings : CaptureSettings)
    (now : Z) (h : Hook) :
  let h' := st (startRecording p settings now h) in
  h' = h
  \/ (status h' = Recording
      /\ timerIntervalRef h' = Some (setInterval p now)
      /\ exists finalStream negotiated,
           mediaRecorderRef h'
           = Some {| rec_stream := finalStream;
                     rec_mimeType := negotiated;
                     rec_state := RecorderRecording |}
           /\ streamRef h' = Some finalStream)
  \/ released h'.
Proof.
  intros h'. subst h'.
  destruct (status_eqb (status h) Recording
            || status_eqb (status h) Acquiring)%bool eqn:Hact.
  - left. unfold startRecording, bind, get. now rewrite Hact.
  - right.
    assert (Hr : status h <> Recording) by (intros E; rewrite E in Hact; discriminate).
    assert (Ha : status h <> Acquiring) by (intros E; rewrite E in Hact; discriminate).
    set (body := startBody p settings now (acquiring_state settings h)).
    destruct (res body) as [[]|e] eqn:Hres.
    + left.
      assert (Eo : st (startRecording p settings now h) = st body).
      { unfold startRecording, bind, get. rewrite Hact.
        rewrite startPrelude_run. unfold try_catch. fold body.
        destruct body as [[[]|e'] h1 e1]; cbn in Hres; [reflexivity|discriminate]. }
      rewrite Eo.
      destruct (startBody_ok p settings now _ Hres) as (Hs & Hi & _ & Hm).
      auto.
    + right.
      rewrite (startRecording_failed_run p settings now h e Hr Ha Hres).
      rewrite startCatch_run.
      destruct (isPermissionError e); cbn [st]; repeat split.
Qed.

Lemma released_consistent (h : Hook) :
  released h -> clock_and_encoder_consistent h.
Proof.
  intros (_ & Hm & Hi & _). split.
  - intros H. now rewrite Hi in H.
  - intros r H. rewrite Hm in H. discriminate.
Qed.

Lemma step_preserves_consistency (h h' : Hook) :
  clock_and_encoder_consistent h -> step h h' ->
  clock_and_encoder_consistent h'.
Proof.
  intros Inv Hstep. destruct Hstep.
  - (* startRecording *)
    destruct (startRecording_state p settings now h) as [E|[(Hs & Hi & fs & neg & Hm & Hst)|R]].
    + now rewrite E.
    + split.
      * intros _. split; [exact Hs|]. eexists. split; [exact Hm|reflexivity].
      * intros r Hr. rewrite Hm in Hr. injection Hr as <-. exact Hst.
    + now apply released_consistent.
  - (* stopRecording *)
    unfold stopRecording, stopTimer, recorder_set_state, bind, get, emit, modify.
    destruct h as [s e t r sr ch ti cm stt am cbs].
    destruct Inv as [I1 I2]. cbn in I1, I2.
    destruct r as [[rs rm rstate]|]; [specialize (I2 _ eq_refl)|];
      destruct rstate || idtac; destruct s, ti;
      cbn -[cleanup]; rewrite ?cleanup_run; cbn; (split; [intros H; try (exfalso; apply H; reflexivity);
                    try discriminate
                   |intros r' H; try discriminate; try (injection H as <-; exact I2)]);
      try (apply I1; discriminate).
  - (* pauseRecording *)
    unfold pauseRecording, recorder_pause_resume, stopTimer, recorder_set_state,
      bind, get, emit, modify.
    destruct h as [s e t r sr ch ti cm stt am cbs].
    destruct Inv as [I1 I2]. cbn in I1, I2.
    destruct r as [[rs rm rstate]|]; [specialize (I2 _ eq_refl)|];
      destruct rstate || idtac; destruct s, ti;
      cbn; (split; [intros H; try (exfalso; apply H; reflexivity);
                    try discriminate
                   |intros r' H; try discriminate; try (injection H as <-; exact I2)]);
      try (apply I1; discriminate).
  - (* resumeRecording *)
    unfold resumeRecording, recorder_pause_resume, startTimer, recorder_set_state,
      bind, get, emit, modify.
    destruct h as [s e t r sr ch ti cm stt am cbs].
    destruct Inv as [I1 I2]. cbn in I1, I2.
    destruct r as [[rs rm rstate]|]; [specialize (I2 _ eq_refl)|];
      destruct rstate || idtac; destruct s, ti;
      cbn; (split; [intros H; try (exfalso; apply H; reflexivity);
                    try discriminate
                   |intros r' H; try discriminate; try (injection H as <-; exact I2)]);
      try (apply I1; discriminate);
      try (split; [reflexivity|eexists; split; reflexivity]).
  - (* timerTick *)
    unfold timerTick, bind, get, modify.
    destruct h as [s e t r sr ch ti cm stt am cbs].
    destruct ti; exact Inv.
  - (* handleDataAvailable *)
    unfold handleDataAvailable, when, modify, ret.
    destruct h as [s e t r sr ch ti cm stt am cbs].
    destruct (0 <? blob_size data)%N; exact Inv.
  - (* handleStop *)
    rewrite handleStop_state. apply released_consistent. apply cleaned_released.
  - (* takeScreenshot *)
    destruct (takeScreenshot_state p settings now h) as (_ & [E|[msg E]]);
      rewrite E; [exact Inv|].
    destruct h; exact Inv.
  - (* unmount *)
    unfold unmount. rewrite cleanup_run. apply released_consistent.
    apply cleaned_released.
Qed.

(** X5: in every state the hook can reach, the interval of the
    elapsed-time clock is live only while the status is recording and an
    active encoder is held, and a held encoder records the stream kept
    in streamRef. *)
Theorem reachable_clock_and_encoder_consistent :
  forall h : Hook, reachable h -> clock_and_encoder_consistent h.
Proof.
  induction 1 as [|h h' _ IH Hstep].
  - apply released_consistent. repeat split.
  - exact (step_preserves_consistency h h' IH Hstep).
Qed.

(** A witness of X5: the state after a granted start. *)
Lemma reachable_clock_and_encoder_consistent_witness :
  clock_and_encoder_consistent
    (st (startRecording granting (settings_of ScreenVideo true) 0 initial)).
Proof.
  apply reachable_clock_and_encoder_consistent.
  apply (reachable_step initial); [apply reachable_initial|apply step_start].
Defined.

(** ** Screenshots, in every outcome *)

Lemma takeScreenshot_run (p : Platform) (settings : CaptureSettings)
    (now : Z) (h : Hook) :
  takeScreenshot p settings now h =
  match acquire p (ReqDisplay false) with
  | inl err =>
      mkOut (Ok tt)
        (if isScreenshotCancellation err then h
         else setError (Some ("Screenshot failed: " ++ displayMessageOf err)) h)
        [EvRequest (ReqDisplay false)]
  | inr stream =>
      if getContext2d p then
        match toBlob p (screenshotMimeType settings) (screenshotQuality settings) with
        | Some encoded =>
            mkOut (Ok tt) h
              (EvRequest (ReqDisplay false)
                 :: map EvTrackStop stream
                 ++ [EvOnStop
                       {| id := now;
                          name := "screenshot-" ++ Js.of_Z now ++ "."
                                  ++ match imageFormat settings with
                                     | Some f => image_format_name f
                                     | None => "png"
                                     end;
                          url := createObjectURL p encoded;
                          blob := encoded;
                          type := ImageFile;
                          createdAt := now;
                          duration := None |}])%list
        | None =>
            mkOut (Ok tt)
              (setError (Some "Screenshot failed: Failed to create blob from canvas.") h)
              (EvRequest (ReqDisplay false) :: map EvTrackStop stream)
        end
      else
        mkOut (Ok tt)
          (setError (Some "Screenshot failed: Could not get canvas context") h)
          (EvRequest (ReqDisplay false) :: map EvTrackStop stream)
  end.
Proof.
  unfold takeScreenshot, bind, getTracks.
  change (emit (EvRequest (ReqDisplay false)) h)
    with (mkOut (Ok tt) h [EvRequest (ReqDisplay false)]).
  cbn iota.
  destruct (acquire p (ReqDisplay false)) as [err|stream].
  - rewrite screenshotCatch_run. cbn [map app]. reflexivity.
  - destruct (getContext2d p).
    + rewrite forEach_emit.
      destruct (toBlob p _ _) as [b|].
      * reflexivity.
      * rewrite screenshotCatch_run.
        replace (isScreenshotCancellation
                   (ErrorObject "Error" "Failed to create blob from canvas."))
          with false by (vm_compute; reflexivity).
        cbn [map app displayMessageOf]. now rewrite app_nil_r.
    + rewrite screenshotCatch_run.
      replace (isScreenshotCancellation
                 (ErrorObject "Error" "Could not get canvas context"))
        with false by (vm_compute; reflexivity).
      reflexivity.
Qed.

Lemma stopped_tracks_request_stops (r : Request) (l : list MediaStreamTrack)
    (tail : list Event) :
  stopped_tracks (EvRequest r :: map EvTrackStop l ++ tail)
  = (l ++ stopped_tracks tail)%list.
Proof.
  unfold stopped_tracks. cbn [flat_map app]. rewrite flat_map_app.
  fold (stopped_tracks (map EvTrackStop l)). now rewrite stopped_tracks_map.
Qed.

(** X6: takeScreenshot never throws; it makes one display request, asks
    for no audio, and leaves the recorder untouched: of the hook's state
    only the error message may change; and whenever the display stream is
    granted, each of its tracks is stopped exactly once, whether the
    screenshot succeeds or fails. *)
Theorem takeScreenshot_independent_of_recording :
  forall (p : Platform) (settings : CaptureSettings) (now : Z) (h : Hook),
    let o := takeScreenshot p settings now h in
    res o = Ok tt
    /\ st o = setError (error (st o)) h
    /\ requests (evs o) = [ReqDisplay false]
    /\ stopped_tracks (evs o)
       = match acquire p (ReqDisplay false) with
         | inr stream => stream
         | inl _ => []
         end
    /\ (List.length (emitted_files (evs o)) <= 1)%nat.
Proof.
  intros p settings now h o. subst o. rewrite takeScreenshot_run.
  assert (Rq : forall l tail,
             requests tail = [] ->
             requests (EvRequest (ReqDisplay false)
                         :: map EvTrackStop l ++ tail)%list = [ReqDisplay false]).
  { intros l tail Ht. unfold requests in *. cbn [flat_map app].
    rewrite flat_map_app, Ht, app_nil_r. f_equal.
    induction l; simpl; auto. }
  assert (Ef : forall l tail,
             emitted_files (EvRequest (ReqDisplay false)
                              :: map EvTrackStop l ++ tail)%list
             = emitted_files tail).
  { intros l tail. unfold emitted_files. cbn [flat_map app].
    rewrite flat_map_app. fold (emitted_files (map EvTrackStop l)).
    now rewrite emitted_files_track_stops. }
  destruct (acquire p (ReqDisplay false)) as [err|stream].
  - destruct (isScreenshotCancellation err); destruct h; cbn; repeat split; lia.
  - destruct (getContext2d p); [destruct (toBlob p _ _) as [b|]|];
      cbn [res st evs].
    + split; [reflexivity|]. split; [now destruct h|].
      split; [now apply Rq|].
      split; [rewrite stopped_tracks_request_stops; apply app_nil_r|].
      rewrite Ef. cbn. lia.
    + split; [reflexivity|]. split; [now destruct h|].
      rewrite <- (app_nil_r (map EvTrackStop stream)).
      split; [now apply Rq|].
      split; [rewrite stopped_tracks_request_stops; apply app_nil_r|].
      rewrite Ef. cbn. lia.
    + split; [reflexivity|]. split; [now destruct h|].
      rewrite <- (app_nil_r (map EvTrackStop stream)).
      split; [now apply Rq|].
      split; [rewrite stopped_tracks_request_stops; apply app_nil_r|].
      rewrite Ef. cbn. lia.
Qed.

(** X7: a failed screenshot hands nothing to onStop.  A refused display
    request is swallowed without a message when it is a NotAllowedError,
    a PermissionDeniedError or says permission denied, and is reported as
    "Screenshot failed: ..." otherwise; a missing canvas context and a
    failed encoding are always reported.  The status never changes. *)
Theorem takeScreenshot_failures :
  forall (p : Platform) (settings : CaptureSettings) (now : Z) (h : Hook),
    let o := takeScreenshot p settings now h in
    (forall err,
        acquire p (ReqDisplay false) = inl err ->
        emitted_files (evs o) = []
        /\ st o = (if isScreenshotCancellation err then h
                   else setError (Some ("Screenshot failed: "
                                        ++ displayMessageOf err)) h))
    /\ (forall stream,
          acquire p (ReqDisplay false) = inr stream ->
          getContext2d p = false ->
          emitted_files (evs o) = []
          /\ st o = setError
                      (Some "Screenshot failed: Could not get canvas context") h)
    /\ (forall stream,
          acquire p (ReqDisplay false) = inr stream ->
          getContext2d p = true ->
          toBlob p (screenshotMimeType settings) (screenshotQuality settings)
          = None ->
          emitted_files (evs o) = []
          /\ st o = setError
                      (Some "Screenshot failed: Failed to create blob from canvas.") h)
    /\ status (st o) = status h.
Proof.
  intros p settings now h o. subst o. rewrite takeScreenshot_run.
  assert (Ef : forall l,
             emitted_files (EvRequest (ReqDisplay false) :: map EvTrackStop l) = []).
  { intros l. unfold emitted_files. cbn [flat_map app].
    fold (emitted_files (map EvTrackStop l)).
    now rewrite emitted_files_track_stops. }
  split; [|split; [|split]].
  - intros err ->. split; reflexivity.
  - intros stream -> ->. split; [apply Ef|reflexivity].
  - intros stream -> -> ->. split; [apply Ef|reflexivity].
  - destruct (acquire p (ReqDisplay false)) as [err|stream].
    + now destruct (isScreenshotCancellation err).
    + destruct (getContext2d p); [destruct (toBlob p _ _)|]; reflexivity.
Qed.

(** A witness of X7: a dismissed prompt, and a display that is not there. *)
Lemma takeScreenshot_failures_witness :
  st (takeScreenshot (refusing_display cancelled) (settings_of Screenshot false)
        0 initial) = initial
  /\ error (st (takeScreenshot (refusing_display missing)
                  (settings_of Screenshot false) 0 initial))
     = Some "Screenshot failed: Requested device not found".
Proof.
  split.
  - destruct (takeScreenshot_failures (refusing_display cancelled)
                (settings_of Screenshot false) 0 initial) as (H & _).
    destruct (H cancelled eq_refl) as [_ E]. exact E.
  - destruct (takeScreenshot_failures (refusing_display missing)
                (settings_of Screenshot false) 0 initial) as (H & _).
    destruct (H missing eq_refl) as [_ E]. rewrite E. reflexivity.
Defined.

(** ** Pause and stop *)

Lemma ticks_without_interval (ts : list Z) (h : Hook) :
  timerIntervalRef h = None ->
  sequence (map timerTick ts) h = mkOut (Ok tt) h [].
Proof.
  intros Hi. induction ts as [|t ts IH]; [reflexivity|].
  cbn [map sequence]. unfold bind.
  assert (E : timerTick t h = mkOut (Ok tt) h []).
  { unfold timerTick, bind, get. cbn iota beta. now rewrite Hi. }
  rewrite E, IH. reflexivity.
Qed.

Lemma pauseRecording_run (h : Hook) (r : MediaRecorder) :
  status h = Recording -> mediaRecorderRef h = Some r ->
  recorder_active r = true ->
  pauseRecording h =
  mkOut (Ok tt)
    (setStatus Paused
       (set_timerIntervalRef None
          (set_mediaRecorderRef
             (Some {| rec_stream := rec_stream r;
                      rec_mimeType := rec_mimeType r;
                      rec_state := RecorderPaused |}) h)))
    (EvRecorder OpPause
       :: match timerIntervalRef h with
          | Some handle => [EvClearInterval handle]
          | None => []
          end).
Proof.
  intros Hs Hr Ha.
  unfold pauseRecording, recorder_pause_resume, recorder_set_state, stopTimer,
    bind, get, emit, modify.
  rewrite Hr, Hs. cbn [status_eqb]. rewrite Hr, Ha. cbn beta iota.
  rewrite Hr. cbn [option_map timerIntervalRef set_mediaRecorderRef].
  destruct h as [s e t rr sr ch ti cm stt am cbs]; cbn.
  destruct ti; reflexivity.
Qed.

(** X8: a pause command during a recording with an active encoder pauses
    the encoder, clears the clock's interval and sets the status to
    paused; the timer keeps its value however many ticks were still due,
    and the recorded chunks are kept. *)
Theorem pauseRecording_freezes_timer :
  forall (h : Hook) (r : MediaRecorder) (ts : list Z),
    status h = Recording -> mediaRecorderRef h = Some r ->
    recorder_active r = true ->
    let o := pauseRecording h in
    let later := st (sequence (map timerTick ts) (st o)) in
    res o = Ok tt
    /\ status (st o) = Paused
    /\ timerIntervalRef (st o) = None
    /\ (exists r', mediaRecorderRef (st o) = Some r'
                   /\ rec_state r' = RecorderPaused)
    /\ recordedChunksRef (st o) = recordedChunksRef h
    /\ later = st o
    /\ timer later = timer h.
Proof.
  intros h r ts Hs Hr Ha o later. subst later o.
  rewrite (pauseRecording_run h r Hs Hr Ha). cbn [res st].
  rewrite ticks_without_interval by reflexivity. cbn [st].
  repeat split. eexists. split; reflexivity.
Qed.

(** A pause after five seconds, then ticks that were still queued. *)
Lemma pauseRecording_freezes_timer_witness :
  timer (st (sequence (map timerTick [6000; 7000; 60000])
               (st (pauseRecording recording_five_seconds)))) = 5.
Proof.
  refine (proj2 (proj2 (proj2 (proj2 (proj2 (proj2
    (pauseRecording_freezes_timer recording_five_seconds
       {| rec_stream := [screenVideoTrack; screenAudioTrack];
          rec_mimeType := "video/webm; codecs=vp9";
          rec_state := RecorderRecording |}
       [6000; 7000; 60000] _ _ _))))))); reflexivity.
Defined.

Lemma stopRecording_active_run (h : Hook) (r : MediaRecorder) :
  mediaRecorderRef h = Some r -> recorder_active r = true ->
  stopRecording h =
  mkOut (Ok tt)
    (set_timerIntervalRef None
       (set_mediaRecorderRef
          (Some {| rec_stream := rec_stream r;
                   rec_mimeType := rec_mimeType r;
                   rec_state := Inactive |}) h))
    (EvRecorder OpStop
       :: match timerIntervalRef h with
          | Some handle => [EvClearInterval handle]
          | None => []
          end).
Proof.
  intros Hr Ha.
  unfold stopRecording, recorder_set_state, stopTimer, bind, get, emit, modify.
  rewrite Hr, Ha. cbn beta iota. rewrite Hr.
  destruct h as [s e t rr sr ch ti cm stt am cbs]; cbn.
  destruct ti; reflexivity.
Qed.


Lemma stopped_tracks_cleanup (h : Hook) :
  stopped_tracks (cleanup_events h)
  = match streamRef h with Some s => s | None => [] end.
Proof.
  unfold cleanup_events, stopped_tracks. rewrite !flat_map_app.
  fold (stopped_tracks (map EvTeardown (cleanupCallbacks h))).
  assert (T : forall l, stopped_tracks (map EvTeardown l) = [])
    by (induction l; simpl; auto).
  rewrite T. destruct (streamRef h) as [s|], (timerIntervalRef h);
    cbn [flat_map app]; rewrite ?app_nil_r;
    try apply (stopped_tracks_map s); reflexivity.
Qed.

(** X9: a stop command on an active encoder only asks the encoder to
    stop and clears the clock's interval; when the encoder's stop event
    follows with chunks recorded, one file is handed to onStop, the
    status becomes stopped, every track of the session's stream is
    stopped, each teardown callback is invoked once, and everything is
    released. *)
Theorem stop_then_stop_event :
  forall (p : Platform) (now : Z) (h : Hook) (r : MediaRecorder),
    mediaRecorderRef h = Some r -> recorder_active r = true ->
    recordedChunksRef h <> [] ->
    let o1 := stopRecording h in
    let o := sequence [stopRecording; handleStop p now] h in
    status (st o1) = status h
    /\ recordedChunksRef (st o1) = recordedChunksRef h
    /\ streamRef (st o1) = streamRef h
    /\ stopped_tracks (evs o1) = []
    /\ res o = Ok tt
    /\ status (st o) = Stopped
    /\ released (st o)
    /\ (exists f, emitted_files (evs o) = [f]
                  /\ blob_size (blob f) = total_size (recordedChunksRef h))
    /\ stopped_tracks (evs o) = match streamRef h with Some s => s | None => [] end
    /\ invoked_teardowns (evs o) = cleanupCallbacks h.
Proof.
  intros p now h r Hr Ha Hc o1 o. subst o1 o.
  cbn [sequence]. unfold bind.
  rewrite (stopRecording_active_run h r Hr Ha).
  set (h1 := set_timerIntervalRef None (set_mediaRecorderRef _ h)).
  assert (Hc1 : recordedChunksRef h1 <> []) by (destruct h; exact Hc).
  rewrite (handleStop_run p now h1 Hc1). cbn [ret res st evs].
  split; [now destruct h|]. split; [now destruct h|]. split; [now destruct h|].
  split; [now destruct (timerIntervalRef h)|].
  split; [reflexivity|]. split; [reflexivity|].
  split; [apply cleaned_released|].
  assert (Ev : forall tail,
             emitted_files
               ((EvRecorder OpStop
                   :: match timerIntervalRef h with
                      | Some handle => [EvClearInterval handle]
                      | None => []
                      end) ++ tail) = emitted_files tail)
    by (intros; destruct (timerIntervalRef h); reflexivity).
  assert (Sv : forall tail,
             stopped_tracks
               ((EvRecorder OpStop
                   :: match timerIntervalRef h with
                      | Some handle => [EvClearInterval handle]
                      | None => []
                      end) ++ tail) = stopped_tracks tail)
    by (intros; destruct (timerIntervalRef h); reflexivity).
  assert (Tv : forall tail,
             invoked_teardowns
               ((EvRecorder OpStop
                   :: match timerIntervalRef h with
                      | Some handle => [EvClearInterval handle]
                      | None => []
                      end) ++ tail) = invoked_teardowns tail)
    by (intros; destruct (timerIntervalRef h); reflexivity).
  rewrite Ev, Sv, Tv, !app_nil_r.
  split.
  { exists (finalized_file p now h1). split.
    - change (emitted_files (EvOnStop (finalized_file p now h1)
                               :: cleanup_events (setStatus Stopped h1)))
        with (finalized_file p now h1
                :: emitted_files (cleanup_events (setStatus Stopped h1))).
      now rewrite emitted_files_cleanup.
    - destruct h; reflexivity. }
  split.
  { change (stopped_tracks (EvOnStop (finalized_file p now h1)
                              :: cleanup_events (setStatus Stopped h1)))
      with (stopped_tracks (cleanup_events (setStatus Stopped h1))).
    rewrite stopped_tracks_cleanup. now destruct h. }
  change (invoked_teardowns (EvOnStop (finalized_file p now h1)
                               :: cleanup_events (setStatus Stopped h1)))
    with (invoked_teardowns (cleanup_events (setStatus Stopped h1))).
  rewrite invoked_teardowns_cleanup. now destruct h.
Qed.

(** A stop after five seconds of screen recording. *)
Lemma stop_then_stop_event_witness :
  exists f,
    emitted_files
      (evs (sequence [stopRecording; handleStop granting 5200]
              recording_five_seconds)) = [f]
    /\ blob_size (blob f) = 4096%N.
Proof.
  destruct (stop_then_stop_event granting 5200 recording_five_seconds
              {| rec_stream := [screenVideoTrack; screenAudioTrack];
                 rec_mimeType := "video/webm; codecs=vp9";
                 rec_state := RecorderRecording |}
              eq_refl eq_refl)
    as (_ & _ & _ & _ & _ & _ & _ & (f & E & B) & _); [discriminate|].
  exists f. split; [exact E|exact B].
Defined.



(** ** Refused devices *)

Lemma requests_app (a b : list Event) :
  requests (a ++ b) = (requests a ++ requests b)%list.
Proof. apply flat_map_app. Qed.

Lemma stopped_tracks_app (a b : list Event) :
  stopped_tracks (a ++ b) = (stopped_tracks a ++ stopped_tracks b)%list.
Proof. apply flat_map_app. Qed.

Lemma requests_track_stops (l : list MediaStreamTrack) :
  requests (map EvTrackStop l) = [].
Proof. induction l; simpl; auto. Qed.

Lemma requests_cleanup (h : Hook) : requests (cleanup_events h) = [].
Proof.
  unfold cleanup_events. rewrite !requests_app.
  pose proof requests_track_stops as E1.
  assert (E2 : forall l, requests (map EvTeardown l) = [])
    by (induction l; simpl; auto).
  rewrite E2. destruct (streamRef h), (timerIntervalRef h); rewrite ?E1; reflexivity.
Qed.

(** A failed start, with the effects of its try block [body_events] and
    the state [h1] the block left, given that no stream was stored. *)
Lemma startRecording_failed_effects (p : Platform) (settings : CaptureSettings)
    (now : Z) (h : Hook) (e : Thrown) (body_events : list Event) :
  status h <> Recording -> status h <> Acquiring ->
  startBody p settings now (acquiring_state settings h)
  = mkOut (Throw e) (acquiring_state settings h) body_events ->
  let o := startRecording p settings now h in
  requests (evs o) = requests body_events
  /\ stopped_tracks (evs o)
     = (match streamRef h with Some s => s | None => [] end
        ++ stopped_tracks body_events)%list
  /\ emitted_files (evs o) = emitted_files body_events
  /\ released (st o)
  /\ status (st o) = (if isPermissionError e then Idle else Error).
Proof.
  intros Hr Ha Hb o. subst o.
  rewrite (startRecording_failed_run p settings now h e Hr Ha)
    by (rewrite Hb; reflexivity).
  rewrite Hb, startCatch_run. cbn [st evs].
  assert (Hc : cleanup_events (acquiring_state settings h) = [])
    by (apply released_no_events; repeat split).
  destruct (isPermissionError e); cbn [res st evs]; rewrite Hc; cbn [app];
    rewrite !requests_app, !stopped_tracks_app, !emitted_files_app,
      requests_cleanup, stopped_tracks_cleanup, emitted_files_cleanup;
    cbn [app]; rewrite !app_nil_r; repeat split.
Qed.

(** X11: when the display capture is the first device asked for (mode
    screen-and-cam, or a screen mode without microphone) and it is
    refused, nothing else is requested: no camera prompt, no microphone
    prompt, no encoder; the start ends idle or in error with everything
    released. *)
Theorem refused_display_requests_nothing_else :
  forall (p : Platform) (settings : CaptureSettings) (now : Z) (h : Hook)
         (e : Thrown),
    status h <> Recording -> status h <> Acquiring ->
    mode settings = ScreenAndCam
    \/ (includeMic settings = false
        /\ (mode settings = ScreenVideo \/ mode settings = Screenshot)) ->
    acquire p (ReqDisplay (includeSystemAudio settings)) = inl e ->
    let o := startRecording p settings now h in
    requests (evs o) = [ReqDisplay (includeSystemAudio settings)]
    /\ emitted_files (evs o) = []
    /\ released (st o)
    /\ status (st o) = (if isPermissionError e then Idle else Error).
Proof.
  intros p settings now h e Hr Ha Hm Hd o.
  assert (Hb : startBody p settings now (acquiring_state settings h)
               = mkOut (Throw e) (acquiring_state settings h)
                   [EvRequest (ReqDisplay (includeSystemAudio settings))]).
  { unfold startBody, acquireScreenAndCam, acquireStandard, mode_includes_screen.
    destruct Hm as [Hm|[Hmic [Hm|Hm]]]; rewrite Hm; try rewrite Hmic;
      cbn [mode_eqb orb mode_name];
      unfold bind, try_catch, emit, await, ret, throw; rewrite ?Hd;
      try reflexivity;
      (replace (Js.includes _ "screen") with true by (vm_compute; reflexivity));
      rewrite Hd; reflexivity. }
  destruct (startRecording_failed_effects p settings now h e _ Hr Ha Hb)
    as (Rq & _ & Ef & Rl & St).
  fold o in Rq, Ef, Rl, St. auto.
Qed.

(** A dismissed screen-share prompt in screen-and-cam mode. *)
Lemma refused_display_requests_nothing_else_witness :
  requests (evs (startRecording (refusing_display cancelled)
                   (settings_of ScreenAndCam true) 0 initial))
  = [ReqDisplay true]
  /\ status (st (startRecording (refusing_display cancelled)
                   (settings_of ScreenAndCam true) 0 initial)) = Idle.
Proof.
  destruct (refused_display_requests_nothing_else (refusing_display cancelled)
              (settings_of ScreenAndCam true) 0 initial cancelled)
    as (R & _ & _ & S);
    [discriminate|discriminate|left; reflexivity|reflexivity|].
  split; [exact R|exact S].
Defined.

(** X12: in a screen mode with the microphone on, when the microphone is
    granted and the display capture is then refused, the tracks of the
    microphone stream are stopped before the start is abandoned. *)
Theorem refused_display_releases_microphone :
  forall (p : Platform) (settings : CaptureSettings) (now : Z) (h : Hook)
         (e : Thrown) (micStream : MediaStream),
    status h <> Recording -> status h <> Acquiring ->
    includeMic settings = true ->
    mode settings = ScreenVideo \/ mode settings = Screenshot ->
    acquire p (ReqMicrophone false) = inr micStream ->
    acquire p (ReqDisplay (includeSystemAudio settings)) = inl e ->
    let o := startRecording p settings now h in
    requests (evs o)
    = [ReqMicrophone false; ReqDisplay (includeSystemAudio settings)]
    /\ stopped_tracks (evs o)
       = (match streamRef h with Some s => s | None => [] end ++ micStream)%list
    /\ emitted_files (evs o) = []
    /\ released (st o)
    /\ status (st o) = (if isPermissionError e then Idle else Error).
Proof.
  intros p settings now h e micStream Hr Ha Hmic Hm Hq Hd o.
  assert (Hb : startBody p settings now (acquiring_state settings h)
               = mkOut (Throw e) (acquiring_state settings h)
                   ([EvRequest (ReqMicrophone false);
                     EvRequest (ReqDisplay (includeSystemAudio settings))]
                    ++ map EvTrackStop micStream)).
  { unfold startBody, acquireStandard, mode_includes_screen.
    destruct Hm as [Hm|Hm]; rewrite Hm, Hmic;
      cbn [mode_eqb orb mode_name];
      (replace (Js.includes _ "screen") with true by (vm_compute; reflexivity));
      unfold bind, try_catch, await, ret, throw, getTracks; rewrite Hq;
      change (emit (EvRequest (ReqMicrophone false)) (acquiring_state settings h))
        with (mkOut (Ok tt) (acquiring_state settings h)
                [EvRequest (ReqMicrophone false)]);
      cbn iota beta;
      change (emit (EvRequest (ReqDisplay (includeSystemAudio settings)))
                (acquiring_state settings h))
        with (mkOut (Ok tt) (acquiring_state settings h)
                [EvRequest (ReqDisplay (includeSystemAudio settings))]);
      cbn iota beta; rewrite Hd; cbn iota beta;
      rewrite forEach_emit; cbn [app]; now rewrite !app_nil_r. }
  destruct (startRecording_failed_effects p settings now h e _ Hr Ha Hb)
    as (Rq & Sv & Ef & Rl & St).
  fold o in Rq, Sv, Ef, Rl, St.
  rewrite Rq, Sv, Ef, stopped_tracks_app, requests_app, emitted_files_app.
  rewrite requests_track_stops, stopped_tracks_map, emitted_files_track_stops.
  split; [reflexivity|]. split; [reflexivity|]. split; [reflexivity|].
  split; assumption.
Qed.

(** Microphone granted, screen share dismissed. *)
Lemma refused_display_releases_microphone_witness :
  stopped_tracks (evs (startRecording (refusing_display cancelled)
                         (settings_of ScreenVideo true) 0 initial))
  = [micTrack].
Proof.
  destruct (refused_display_releases_microphone (refusing_display cancelled)
              (settings_of ScreenVideo true) 0 initial cancelled [micTrack])
    as (_ & S & _);
    [discriminate|discriminate|reflexivity|left; reflexivity
    |reflexivity|reflexivity|].
  exact S.
Defined.

(** X13: in screen-and-cam mode a refused camera is not fatal.  With the
    display granted and the encoder starting, the start ends in
    recording; the compositor is never invoked and registers no teardown
    callback; the stream recorded is the screen's own video tracks,
    followed by the mixed audio track when there is audio to mix. *)
Theorem refused_camera_falls_back_to_screen :
  forall (p : Platform) (settings : CaptureSettings) (now : Z) (h : Hook)
         (e : Thrown) (screen : MediaStream) (v : MediaStreamTrack)
         (vs : list MediaStreamTrack),
    status h <> Recording -> status h <> Acquiring ->
    mode settings = ScreenAndCam ->
    acquire p (ReqDisplay (includeSystemAudio settings)) = inr screen ->
    getVideoTracks screen = v :: vs ->
    acquire p (ReqCamera (cameraDeviceId settings)) = inl e ->
    (forall stream options, exists m, newMediaRecorder p stream options = inr m) ->
    recorderStart p = None ->
    let o := startRecording p settings now h in
    status (st o) = Recording
    /\ Forall not_composition (evs o)
    /\ Forall not_vidCleanup (cleanupCallbacks (st o))
    /\ (exists audio,
          streamRef (st o) = Some (getVideoTracks screen ++ audio)%list
          /\ (audio = [] \/ audio = [mixedTrack p])).
Proof.
  intros p settings now h e screen v vs Hr Ha Hmode Hd Hv Hc Hrec Hstart o.
  assert (E : exists hf ef,
             o = mkOut (Ok tt) hf ef
             /\ status hf = Recording
             /\ Forall not_composition ef
             /\ Forall not_vidCleanup (cleanupCallbacks hf)
             /\ (exists audio,
                   streamRef hf = Some (getVideoTracks screen ++ audio)%list
                   /\ (audio = [] \/ audio = [mixedTrack p])));
    [|destruct E as (hf & ef & -> & E); exact E].
  subst o. unfold startRecording. unfold bind at 1. unfold get. cbn iota beta.
  replace (status_eqb (status h) Recording
           || status_eqb (status h) Acquiring)%bool
    with false by (destruct (status h); try reflexivity; contradiction).
  unfold bind at 1. rewrite startPrelude_run.
  assert (Hcl : Forall not_composition (cleanup_events h)).
  { pose proof (cleanup_emits not_composition) as Hce.
    specialize (Hce (fun _ => I) (fun _ => I) (fun _ => I) h).
    now rewrite cleanup_run in Hce. }
  set (h0 := acquiring_state settings h).
  assert (Hcb : cleanupCallbacks h0 = []) by reflexivity.
  clearbody h0.
  unfold try_catch, startBody, acquireScreenAndCam, mix_session_audio,
    mixAudioTracks, setupVideoComposition, register_onended, recorder_start,
    startTimer, push_cleanupCallback.
  rewrite Hmode. cbn [mode_eqb].
  unfold bind, try_catch, emit, await, modify, get, ret, throw.
  rewrite Hd, Hc, Hv, Hstart.
  destruct h0 as [s0 e0 t0 r0 sr0 ch0 ti0 cm0 stt0 am0 cbs0].
  cbn in Hcb. subst cbs0.
  destruct (includeMic settings);
    [destruct (acquire p (ReqMicrophone true)) as [em|mic]|];
    destruct (getAudioTracks screen) as [|a al];
    cbn -[getSupportedMimeType Js.or_str Js.truthy];
    match goal with
    | |- context [newMediaRecorder p ?x ?y] =>
        destruct (Hrec x y) as [m Hm]; rewrite Hm
    end;
    cbn -[getSupportedMimeType Js.or_str Js.truthy];
    eexists; eexists; (split; [reflexivity|]);
    (split; [reflexivity|]);
    (split; [apply Forall_app; split; [exact Hcl|repeat constructor]|]);
    (split; [repeat constructor|]);
    eexists; (split; [reflexivity|]); auto.
Qed.

(** Screen granted with system audio, camera refused, microphone on. *)
Lemma refused_camera_falls_back_to_screen_witness :
  status (st (startRecording (refusing_camera missing)
                (settings_of ScreenAndCam true) 0 initial)) = Recording
  /\ Forall not_composition
       (evs (startRecording (refusing_camera missing)
               (settings_of ScreenAndCam true) 0 initial)).
Proof.
  destruct (refused_camera_falls_back_to_screen (refusing_camera missing)
              (settings_of ScreenAndCam true) 0 initial missing
              [screenVideoTrack; screenAudioTrack] screenVideoTrack [])
    as (S & C & _);
    [discriminate|discriminate|reflexivity|reflexivity|reflexivity|reflexivity
    |intros stream options; eexists; reflexivity|reflexivity|].
  split; [exact S|exact C].
Defined.

(** ** More on the negotiator *)

(** X14: whatever the platform supports, a non-empty result of
    getSupportedMimeType is an audio format in audio-only mode and a
    video format in every other mode. *)
Theorem getSupportedMimeType_kind_follows_mode :
  forall (api : EncoderApi) (settings : CaptureSettings),
    let r := getSupportedMimeType api settings in
    r = ""
    \/ String.prefix
         (match mode settings with AudioOnly => "audio/" | _ => "video/" end)
         r = true.
Proof.
  intros api settings r. subst r. rewrite getSupportedMimeType_find.
  destruct (find (isSupported api) (candidates settings)) as [c|] eqn:F;
    [|now left].
  right. apply find_some in F. destruct F as [Hin _].
  unfold candidates, videoCandidates in Hin.
  destruct (mode settings), (container settings); simpl in Hin;
    repeat (destruct Hin as [<-|Hin]; [reflexivity|]); destruct Hin.
Qed.

(** X15: the preferred container wins whenever the platform can encode
    its plain form: with container mp4 and video/mp4 supported the
    result is an MP4 format; with container webm and video/webm
    supported it is a WebM format; in audio-only mode with audio/mp4
    supported it is an MP4 format. *)
Theorem getSupportedMimeType_honours_container :
  forall (api : EncoderApi) (settings : CaptureSettings),
    let r := getSupportedMimeType api settings in
    (mode settings <> AudioOnly -> container settings = Mp4 ->
     isSupported api "video/mp4" = true ->
     String.prefix "video/mp4" r = true)
    /\ (mode settings <> AudioOnly -> container settings = Webm ->
        isSupported api "video/webm" = true ->
        String.prefix "video/webm" r = true)
    /\ (mode settings = AudioOnly ->
        isSupported api "audio/mp4" = true ->
        String.prefix "audio/mp4" r = true).
Proof.
  intros api settings r. subst r.
  assert (E : getSupportedMimeType api settings =
              Js.or_undef (find (isSupported api) (candidates settings)) "").
  { unfold getSupportedMimeType, candidates. now destruct (mode settings). }
  rewrite E. unfold candidates, videoCandidates, audioCandidates.
  split; [|split].
  - intros Hm Hc Hs. rewrite Hc.
    destruct (mode settings); try (exfalso; apply Hm; reflexivity);
      cbn [find app];
      repeat match goal with
             | |- context [if isSupported api (?a ++ ?b) then _ else _] =>
                 destruct (isSupported api (a ++ b))
             end;
      rewrite ?Hs; reflexivity.
  - intros Hm Hc Hs. rewrite Hc.
    destruct (mode settings); try (exfalso; apply Hm; reflexivity);
      cbn [find app];
      destruct (isSupported api "video/webm; codecs=vp9");
      try reflexivity;
      repeat match goal with
             | |- context [if isSupported api (?a ++ ?b) then _ else _] =>
                 destruct (isSupported api (a ++ b))
             end;
      try reflexivity;
      destruct (isSupported api "video/webm; codecs=vp8");
      rewrite ?Hs; reflexivity.
  - intros Hm Hs. rewrite Hm. cbn [find].
    destruct (isSupported api "audio/mp4; codecs=mp4a.40.2");
      rewrite ?Hs; reflexivity.
Qed.

(** A platform that encodes only plain WebM, asked for WebM. *)
Lemma getSupportedMimeType_honours_container_witness :
  String.prefix "video/webm"
    (getSupportedMimeType plain_webm_only (settings_of ScreenVideo true)) = true.
Proof.
  apply (getSupportedMimeType_honours_container plain_webm_only
           (settings_of ScreenVideo true)).
  - discriminate.
  - reflexivity.
  - reflexivity.
Defined.

(** ** The elapsed-time display *)

Lemma two_digits_small (n : Z) :
  0 <= n < 100 -> String.length (two_digits n) = 2%nat.
Proof.
  intros Hn.
  assert (A : forallb (fun k => Nat.eqb (String.length (two_digits (Z.of_nat k))) 2)
                (seq 0 100) = true) by (vm_compute; reflexivity).
  rewrite forallb_forall in A.
  specialize (A (Z.to_nat n)).
  rewrite Z2Nat.id in A by lia.
  apply Nat.eqb_eq, A, in_seq. lia.
Qed.

Lemma length_append (a b : string) :
  String.length (a ++ b) = (String.length a + String.length b)%nat.
Proof. induction a; simpl; auto. Qed.

Lemma formatTime_fields (s : Z) :
  formatTime s
  = two_digits (s / 3600) ++ ":" ++ two_digits (Z.rem s 3600 / 60) ++ ":"
    ++ two_digits (Z.rem s 60).
Proof. reflexivity. Qed.

Lemma time_fields_bounds (s : Z) :
  0 <= s < 360000 ->
  0 <= s / 3600 < 100
  /\ 0 <= Z.rem s 3600 / 60 < 60
  /\ 0 <= Z.rem s 60 < 60
  /\ s = 3600 * (s / 3600) + 60 * (Z.rem s 3600 / 60) + Z.rem s 60.
Proof.
  intros Hs.
  rewrite !Z.rem_mod_nonneg by lia.
  pose proof (Z.div_mod s 3600 ltac:(lia)) as D1.
  pose proof (Z.mod_pos_bound s 3600 ltac:(lia)) as B1.
  pose proof (Z.div_mod (s mod 3600) 60 ltac:(lia)) as D2.
  pose proof (Z.mod_pos_bound (s mod 3600) 60 ltac:(lia)) as B2.
  pose proof (Z.mod_pos_bound s 60 ltac:(lia)) as B3.
  assert (M : (s mod 3600) mod 60 = s mod 60).
  { apply (Z.mod_unique s 60 (60 * (s / 3600) + (s mod 3600) / 60)); [left|]; lia. }
  assert (Q1 : 0 <= s / 3600 < 100).
  { split; [apply Z.div_pos; lia|apply Z.div_lt_upper_bound; lia]. }
  assert (Q2 : 0 <= (s mod 3600) / 60 < 60).
  { split; [apply Z.div_pos; lia|apply Z.div_lt_upper_bound; lia]. }
  repeat split; try lia.
Qed.

(** X16: for an elapsed time below one hundred hours the display has the
    fixed shape HH:MM:SS: eight characters, colons at the third and
    sixth place. *)
Theorem formatTime_fixed_width :
  forall s : Z,
    0 <= s < 360000 ->
    String.length (formatTime s) = 8%nat
    /\ String.get 2 (formatTime s) = Some ":"%char
    /\ String.get 5 (formatTime s) = Some ":"%char.
Proof.
  intros s Hs. rewrite formatTime_fields.
  destruct (time_fields_bounds s Hs) as (B1 & B2 & B3 & _).
  pose proof (two_digits_small (s / 3600) ltac:(lia)) as L1.
  pose proof (two_digits_small (Z.rem s 3600 / 60) ltac:(lia)) as L2.
  pose proof (two_digits_small (Z.rem s 60) ltac:(lia)) as L3.
  destruct (two_digits (s / 3600)) as [|a1 [|a2 [|? ?]]]; try discriminate L1.
  destruct (two_digits (Z.rem s 3600 / 60)) as [|b1 [|b2 [|? ?]]];
    try discriminate L2.
  destruct (two_digits (Z.rem s 60)) as [|c1 [|c2 [|? ?]]]; try discriminate L3.
  repeat split.
Qed.

(** One hour, one minute and one second. *)
Lemma formatTime_fixed_width_witness :
  formatTime 3661 = "01:01:01" /\ String.length (formatTime 3661) = 8%nat.
Proof.
  split; [reflexivity|].
  apply (formatTime_fixed_width 3661). lia.
Defined.

Lemma two_digits_injective (n m : Z) :
  0 <= n < 100 -> 0 <= m < 100 -> two_digits n = two_digits m -> n = m.
Proof.
  intros Hn Hm E.
  assert (A : forallb
                (fun i => forallb
                   (fun j => implb (String.eqb (two_digits (Z.of_nat i))
                                               (two_digits (Z.of_nat j)))
                                   (Nat.eqb i j))
                   (seq 0 100))
                (seq 0 100) = true) by (vm_compute; reflexivity).
  rewrite forallb_forall in A.
  specialize (A (Z.to_nat n) ltac:(apply in_seq; lia)).
  rewrite forallb_forall in A.
  specialize (A (Z.to_nat m) ltac:(apply in_seq; lia)).
  rewrite !Z2Nat.id in A by lia.
  rewrite E, String.eqb_refl in A. cbn [implb] in A.
  apply Nat.eqb_eq in A. lia.
Qed.

(** X17: below one hundred hours two different elapsed times are never
    displayed alike. *)
Theorem formatTime_injective :
  forall a b : Z,
    0 <= a < 360000 -> 0 <= b < 360000 ->
    formatTime a = formatTime b -> a = b.
Proof.
  intros a b Ha Hb E. rewrite !formatTime_fields in E.
  destruct (time_fields_bounds a Ha) as (A1 & A2 & A3 & Ea).
  destruct (time_fields_bounds b Hb) as (B1 & B2 & B3 & Eb).
  pose proof (two_digits_small (a / 3600) ltac:(lia)) as LA1.
  pose proof (two_digits_small (Z.rem a 3600 / 60) ltac:(lia)) as LA2.
  pose proof (two_digits_small (Z.rem a 60) ltac:(lia)) as LA3.
  pose proof (two_digits_small (b / 3600) ltac:(lia)) as LB1.
  pose proof (two_digits_small (Z.rem b 3600 / 60) ltac:(lia)) as LB2.
  pose proof (two_digits_small (Z.rem b 60) ltac:(lia)) as LB3.
  pose proof (two_digits_injective (a / 3600) (b / 3600)
                ltac:(lia) ltac:(lia)) as I1.
  pose proof (two_digits_injective (Z.rem a 3600 / 60) (Z.rem b 3600 / 60)
                ltac:(lia) ltac:(lia)) as I2.
  pose proof (two_digits_injective (Z.rem a 60) (Z.rem b 60)
                ltac:(lia) ltac:(lia)) as I3.
  destruct (two_digits (a / 3600)) as [|a1 [|a2 [|? ?]]]; try discriminate LA1.
  destruct (two_digits (Z.rem a 3600 / 60)) as [|a3 [|a4 [|? ?]]];
    try discriminate LA2.
  destruct (two_digits (Z.rem a 60)) as [|a5 [|a6 [|? ?]]]; try discriminate LA3.
  destruct (two_digits (b / 3600)) as [|b1 [|b2 [|? ?]]]; try discriminate LB1.
  destruct (two_digits (Z.rem b 3600 / 60)) as [|b3 [|b4 [|? ?]]];
    try discriminate LB2.
  destruct (two_digits (Z.rem b 60)) as [|b5 [|b6 [|? ?]]]; try discriminate LB3.
  cbn in E. injection E as -> -> -> -> -> ->.
  specialize (I1 eq_refl). specialize (I2 eq_refl). specialize (I3 eq_refl).
  lia.
Qed.

(** Ten seconds and eleven seconds are displayed differently. *)
Lemma formatTime_injective_witness :
  formatTime 10 <> formatTime 11.
Proof.
  intros E.
  assert (H : 10 = 11)
    by (apply (formatTime_injective 10 11); [lia|lia|exact E]).
  discriminate H.
Defined.

(** ** The application shell *)

Lemma app_step_preserves_selection (a a' : App) :
  selection_valid a -> app_step a a' -> selection_valid a'.
Proof.
  intros [V1 V2] Hstep. destruct Hstep; unfold selection_valid; cbn.
  - split; [discriminate|exact V2].
  - split; [discriminate|]. intros f Hf. right. now apply V2.
  - split; [discriminate|]. intros f [= <-]. assumption.
  - split; [discriminate|discriminate].
  - unfold handleDeleteFile.
    destruct (selectedFile a) as [sel|] eqn:Hsel.
    + destruct (id sel =? fileId) eqn:Hid; cbn.
      * split; [discriminate|discriminate].
      * split; [intros _; discriminate|].
        intros f [= <-]. apply filter_In. split; [now apply V2|].
        now rewrite Hid.
    + cbn. split; [|discriminate].
      intros Hv. exfalso. now apply (V1 Hv).
  - split; [discriminate|exact V2].
  - split; [discriminate|exact V2].
Qed.

(** X18: in every state the application shell can reach, the editor
    view has a selected file to show, and a selected file is still in
    the list of captured files: deleting the file that is open closes
    the editor, deleting another one leaves the selection in place. *)
Theorem app_selection_always_valid :
  forall a : App, app_reachable a -> selection_valid a.
Proof.
  induction 1 as [|a a' _ IH Hstep].
  - split; [discriminate|discriminate].
  - exact (app_step_preserves_selection a a' IH Hstep).
Qed.

(** A capture is added, opened in the editor and deleted. *)
Lemma app_selection_always_valid_witness :
  selection_valid
    (handleDeleteFile 3500
       (handleSelectFile (finalized_file granting 3500 substituted_format)
          (addCapturedFile (finalized_file granting 3500 substituted_format)
             app_initial))).
Proof.
  apply app_selection_always_valid.
  eapply app_reachable_step; [|apply app_delete].
  eapply app_reachable_step; [|apply app_select; left; reflexivity].
  eapply app_reachable_step; [|apply app_add].
  apply app_reachable_initial.
Defined.

(** X19: the files the hook hands to onStop reach the shell's list in
    full, newest first, ahead of the files already there; and deleting
    by identifier removes exactly the files with that identifier,
    keeping the order of the others. *)
Theorem delivered_files_newest_first :
  forall (es : list Event) (a : App) (fileId : Z),
    capturedFiles (deliver es a)
    = (rev (emitted_files es) ++ capturedFiles a)%list
    /\ (forall f, In f (capturedFiles (handleDeleteFile fileId (deliver es a)))
                  <-> In f (capturedFiles (deliver es a)) /\ id f <> fileId)
    /\ capturedFiles (handleDeleteFile fileId (deliver es a))
       = filter (fun f => negb (id f =? fileId)) (capturedFiles (deliver es a)).
Proof.
  intros es a fileId.
  assert (D : forall fs b,
             capturedFiles (fold_left (fun acc f => addCapturedFile f acc) fs b)
             = (rev fs ++ capturedFiles b)%list).
  { induction fs as [|f fs IH]; intros b; [reflexivity|].
    cbn [fold_left rev]. rewrite IH. cbn. now rewrite <- app_assoc. }
  assert (F : capturedFiles (handleDeleteFile fileId (deliver es a))
              = filter (fun f => negb (id f =? fileId))
                  (capturedFiles (deliver es a))).
  { unfold handleDeleteFile.
    destruct (selectedFile (deliver es a)) as [sel|]; [|reflexivity].
    destruct (id sel =? fileId); reflexivity. }
  split; [apply D|]. split; [|exact F].
  intros f. rewrite F, filter_In. split; intros [H1 H2]; split; auto.
  - intros E. rewrite E, Z.eqb_refl in H2. discriminate.
  - destruct (Z.eqb_spec (id f) fileId); [contradiction|reflexivity].
Qed.

(** ** Sessions without composition *)

(** X20: in the screen modes without camera, with the display granted
    and the encoder starting, the start ends in recording whether or not
    a requested microphone is granted; the stream recorded is made of
    the acquired tracks themselves (all tracks of the display stream,
    then those of the microphone stream), no teardown callback is
    registered, and the end of the display's first video track is wired
    to the stop command. *)
Theorem screen_session_records_acquired_tracks :
  forall (p : Platform) (settings : CaptureSettings) (now : Z) (h : Hook)
         (screen : MediaStream) (v : MediaStreamTrack)
         (vs : list MediaStreamTrack),
    status h <> Recording -> status h <> Acquiring ->
    mode settings = ScreenVideo \/ mode settings = Screenshot ->
    acquire p (ReqDisplay (includeSystemAudio settings)) = inr screen ->
    getVideoTracks screen = v :: vs ->
    (forall stream options, exists m, newMediaRecorder p stream options = inr m) ->
    recorderStart p = None ->
    let o := startRecording p settings now h in
    let microphone :=
      if includeMic settings then
        match acquire p (ReqMicrophone false) with
        | inr a => a
        | inl _ => []
        end
      else [] in
    status (st o) = Recording
    /\ streamRef (st o) = Some (screen ++ microphone)%list
    /\ cleanupCallbacks (st o) = []
    /\ In (EvOnEnded v) (evs o)
    /\ Forall not_composition (evs o).
Proof.
  intros p settings now h screen v vs Hr Ha Hmode Hd Hv Hrec Hstart o microphone.
  assert (E : exists hf ef,
             o = mkOut (Ok tt) hf ef
             /\ status hf = Recording
             /\ streamRef hf = Some (screen ++ microphone)%list
             /\ cleanupCallbacks hf = []
             /\ In (EvOnEnded v) ef
             /\ Forall not_composition ef);
    [|destruct E as (hf & ef & -> & E); exact E].
  subst o microphone. unfold startRecording. unfold bind at 1. unfold get.
  cbn iota beta.
  replace (status_eqb (status h) Recording
           || status_eqb (status h) Acquiring)%bool
    with false by (destruct (status h); try reflexivity; contradiction).
  unfold bind at 1. rewrite startPrelude_run.
  assert (Hcl : Forall not_composition (cleanup_events h)).
  { pose proof (cleanup_emits not_composition) as Hce.
    specialize (Hce (fun _ => I) (fun _ => I) (fun _ => I) h).
    now rewrite cleanup_run in Hce. }
  set (h0 := acquiring_state settings h).
  assert (Hcb : cleanupCallbacks h0 = []) by reflexivity.
  clearbody h0.
  unfold try_catch, startBody, acquireStandard, register_onended,
    recorder_start, startTimer, mode_includes_screen.
  destruct h0 as [s0 e0 t0 r0 sr0 ch0 ti0 cm0 stt0 am0 cbs0].
  cbn in Hcb. subst cbs0.
  destruct screen as [|t1 screen']; [discriminate Hv|].
  destruct Hmode as [Hmode|Hmode]; rewrite Hmode;
    cbn [mode_eqb orb mode_name];
    (replace (Js.includes _ "screen") with true by (vm_compute; reflexivity));
    unfold bind, try_catch, emit, await, modify, get, ret, throw, getTracks;
    rewrite Hd, Hv, Hstart;
    (destruct (includeMic settings);
     [destruct (acquire p (ReqMicrophone false)) as [em|mic]|]);
    cbn -[getSupportedMimeType Js.or_str Js.truthy];
    match goal with
    | |- context [newMediaRecorder p ?x ?y] =>
        destruct (Hrec x y) as [m Hm]; rewrite Hm
    end;
    cbn -[getSupportedMimeType Js.or_str Js.truthy];
    eexists; eexists; (split; [reflexivity|]);
    (split; [reflexivity|]);
    (split; [rewrite ?app_nil_r; reflexivity|]);
    (split; [reflexivity|]);
    (split; [apply in_or_app; right; cbn; tauto|]);
    apply Forall_app; (split; [exact Hcl|repeat constructor]).
Qed.

(** A granted screen recording with microphone and system audio. *)
Lemma screen_session_records_acquired_tracks_witness :
  streamRef (st (startRecording granting (settings_of ScreenVideo true) 0 initial))
  = Some [screenVideoTrack; screenAudioTrack; micTrack].
Proof.
  destruct (screen_session_records_acquired_tracks granting
              (settings_of ScreenVideo true) 0 initial
              [screenVideoTrack; screenAudioTrack] screenVideoTrack [])
    as (_ & S & _);
    [discriminate|discriminate|left; reflexivity|reflexivity|reflexivity
    |intros stream options; eexists; reflexivity|reflexivity|].
  exact S.
Defined.

(** X21: an audio-only start asks for the microphone and for nothing
    else.  With a microphone stream that has tracks and an encoder that
    starts, it ends in recording on exactly that stream; with a stream
    that has no track it ends in error with the message "Failed to
    start recording: No media tracks were acquired.". *)
Theorem audio_only_session :
  forall (p : Platform) (settings : CaptureSettings) (now : Z) (h : Hook)
         (mic : MediaStream),
    status h <> Recording -> status h <> Acquiring ->
    mode settings = AudioOnly ->
    acquire p (ReqMicrophone false) = inr mic ->
    let o := startRecording p settings now h in
    requests (evs o) = [ReqMicrophone false]
    /\ (mic <> [] ->
        (forall stream options, exists m, newMediaRecorder p stream options = inr m) ->
        recorderStart p = None ->
        status (st o) = Recording /\ streamRef (st o) = Some mic)
    /\ (mic = [] ->
        status (st o) = Error
        /\ error (st o)
           = Some "Failed to start recording: No media tracks were acquired."
        /\ released (st o)).
Proof.
  intros p settings now h mic Hr Ha Hmode Hq o.
  assert (Hrc : requests (cleanup_events h) = []) by apply requests_cleanup.
  destruct mic as [|t ts].
  - (* no track *)
    assert (Hb : startBody p settings now (acquiring_state settings h)
                 = mkOut (Throw (ErrorObject "Error" "No media tracks were acquired."))
                     (acquiring_state settings h)
                     [EvRequest (ReqMicrophone false)]).
    { unfold startBody, acquireStandard, mode_includes_screen.
      rewrite Hmode. cbn [mode_eqb orb mode_name]. rewrite orb_true_r.
      replace (Js.includes "audio-only" "screen") with false
        by (vm_compute; reflexivity).
      unfold bind, try_catch, emit, await, ret, throw. rewrite Hq. reflexivity. }
    subst o.
    rewrite (startRecording_failed_run p settings now h _ Hr Ha)
      by (rewrite Hb; reflexivity).
    rewrite Hb, startCatch_run.
    replace (isPermissionError (ErrorObject "Error" "No media tracks were acquired."))
      with false by (vm_compute; reflexivity).
    cbn [res st evs].
    assert (Hc : cleanup_events (acquiring_state settings h) = [])
      by (apply released_no_events; repeat split).
    rewrite Hc. cbn [app]. rewrite requests_app, Hrc.
    split; [reflexivity|]. split; [intros C; now contradiction C|].
    intros _. repeat split.
  - (* a stream with tracks *)
    assert (E : forall (Hrec : forall stream options,
                          exists m, newMediaRecorder p stream options = inr m)
                       (Hstart : recorderStart p = None),
               exists hf ef,
                 o = mkOut (Ok tt) hf ef /\ status hf = Recording
                 /\ streamRef hf = Some (t :: ts)).
    { intros Hrec Hstart. subst o.
      unfold startRecording. unfold bind at 1. unfold get. cbn iota beta.
      replace (status_eqb (status h) Recording
               || status_eqb (status h) Acquiring)%bool
        with false by (destruct (status h); try reflexivity; contradiction).
      unfold bind at 1. rewrite startPrelude_run.
      set (h0 := acquiring_state settings h). clearbody h0.
      unfold try_catch, startBody, acquireStandard, recorder_start, startTimer,
        mode_includes_screen.
      rewrite Hmode. cbn [mode_eqb orb mode_name]. rewrite orb_true_r.
      replace (Js.includes "audio-only" "screen") with false
        by (vm_compute; reflexivity).
      unfold bind, try_catch, emit, await, modify, get, ret, throw, getTracks.
      rewrite Hq, Hstart.
      destruct h0 as [s0 e0 t0 r0 sr0 ch0 ti0 cm0 stt0 am0 cbs0].
      cbn -[getSupportedMimeType Js.or_str Js.truthy].
      match goal with
      | |- context [newMediaRecorder p ?x ?y] =>
          destruct (Hrec x y) as [m Hm]; rewrite Hm
      end.
      cbn -[getSupportedMimeType Js.or_str Js.truthy].
      eexists; eexists; repeat split. }
    assert (Rq : requests (evs o) = [ReqMicrophone false]).
    { subst o. unfold startRecording. unfold bind at 1. unfold get. cbn iota beta.
      replace (status_eqb (status h) Recording
               || status_eqb (status h) Acquiring)%bool
        with false by (destruct (status h); try reflexivity; contradiction).
      unfold bind at 1. rewrite startPrelude_run.
      set (h0 := acquiring_state settings h).
      assert (Hc0 : forall hx, released hx -> requests (cleanup_events hx) = [])
        by (intros; apply requests_cleanup).
      clearbody h0.
      unfold try_catch, startBody, acquireStandard, recorder_start, startTimer,
        mode_includes_screen, startCatch.
      rewrite Hmode. cbn [mode_eqb orb mode_name]. rewrite orb_true_r.
      replace (Js.includes "audio-only" "screen") with false
        by (vm_compute; reflexivity).
      unfold bind, try_catch, emit, await, modify, get, ret, throw, getTracks.
      rewrite Hq.
      destruct h0 as [s0 e0 t0 r0 sr0 ch0 ti0 cm0 stt0 am0 cbs0].
      cbn -[getSupportedMimeType Js.or_str Js.truthy cleanup isPermissionError].
      destruct (newMediaRecorder p _ _) as [e1|m];
        [|destruct (recorderStart p) as [e2|]];
        cbn -[getSupportedMimeType Js.or_str Js.truthy cleanup isPermissionError];
        rewrite ?cleanup_run;
        cbn -[getSupportedMimeType Js.or_str Js.truthy cleanup isPermissionError
              cleanup_events];
        repeat match goal with
               | |- context [if isPermissionError ?e then _ else _] =>
                   destruct (isPermissionError e)
               end;
        cbn [evs]; rewrite requests_app, Hrc; cbn [app];
        repeat match goal with
               | |- context [requests (EvRequest ?r :: ?l)] =>
                   change (requests (EvRequest r :: l)) with (r :: requests l)
               | |- context [requests (EvRecorder ?r :: ?l)] =>
                   change (requests (EvRecorder r :: l)) with (requests l)
               | |- context [requests (EvSetInterval ?r :: ?l)] =>
                   change (requests (EvSetInterval r :: l)) with (requests l)
               end;
        rewrite ?requests_app, ?requests_cleanup; reflexivity. }
    split; [exact Rq|]. split; [|discriminate].
    intros _ Hrec Hstart. destruct (E Hrec Hstart) as (hf & ef & -> & S1 & S2).
    split; assumption.
Qed.

(** A granted microphone in audio-only mode. *)
Lemma audio_only_session_witness :
  status (st (startRecording granting (settings_of AudioOnly true) 0 initial))
  = Recording
  /\ requests (evs (startRecording granting (settings_of AudioOnly true) 0 initial))
     = [ReqMicrophone false].
Proof.
  destruct (audio_only_session granting (settings_of AudioOnly true) 0 initial
              [micTrack])
    as (R & H & _);
    [discriminate|discriminate|reflexivity|reflexivity|].
  destruct H as [S _];
    [discriminate|intros stream options; eexists; reflexivity|reflexivity|].
  split; [exact S|exact R].
Defined.
